(** * ws3 ROV control core: a shallow embedding and its verification

    The development follows the C++ sources:
    - [Config]             : src/config.cpp (parameter record, [loadConfig]);
    - [ThrusterControl]    : thruster_control.cpp (mixer, smoothing, LED
                             state machines, driver writes);
    - [ConfigSynchronizer] : src/config_synchronizer.cpp (section map,
                             payload application, persistence);
    - [Main]               : src/main.cpp (control loop, failsafe, rollover
                             check, shutdown sequence).

    C++ [int] is modelled by [Z] (signed overflow is undefined behaviour in
    C++, the model computes the mathematical value), [float] and [double]
    by the IEEE-754 binary32 and binary64 instances of [SpecFloat], strings
    by [string], the nested [std::map] by [gmap]. Calls into the hardware
    driver and the other external collaborators are recorded, in order, in
    a trace of [Event]s. *)

From Stdlib Require Import ZArith String Ascii List Lia Bool.
From Stdlib Require Import Floats.SpecFloat.
From stdpp Require Import base option list strings gmap sorting.
From coqutil Require Import Datatypes.RecordSetters.
Import DoubleBraceUpdate.

Local Open Scope string_scope.
Local Open Scope list_scope.
Local Open Scope Z_scope.

(* ================================================================= *)
(** ** IEEE-754 arithmetic *)

(** C++ [float]: IEEE-754 binary32, 24 bits of precision. *)
Module F32.
Definition prec : Z := 24.
Definition emax : Z := 128.

Definition t := spec_float.

Definition zero : t := S754_zero false.
(** Conversion from an integer, rounding to nearest even. *)
Definition of_int (z : Z) : t := binary_normalize prec emax z 0 false.
Definition one : t := of_int 1.

Definition add : t -> t -> t := SFadd prec emax.
Definition sub : t -> t -> t := SFsub prec emax.
Definition mul : t -> t -> t := SFmul prec emax.
Definition div : t -> t -> t := SFdiv prec emax.
Definition opp : t -> t := SFopp.
Definition abs : t -> t := SFabs.

Definition eqb : t -> t -> bool := SFeqb.
Definition ltb : t -> t -> bool := SFltb.
(** C++ [a != b] is the negation of [a == b] (true when a NaN is
    involved), [a > b] is [b < a]. *)
Definition neb (a b : t) : bool := negb (eqb a b).
Definition gtb (a b : t) : bool := ltb b a.

(** [std::max(a, b)] is [(a < b) ? b : a]; [std::min(a, b)] is
    [(b < a) ? b : a]. *)
Definition max (a b : t) : t := if ltb a b then b else a.
Definition min (a b : t) : t := if ltb b a then b else a.

(** [static_cast<int>(x)]: truncation toward zero. The conversion of a
    NaN, of an infinity or of a value outside the range of [int] is
    undefined behaviour in C++; the model returns the mathematical
    truncation of every finite value and 0 for NaN and infinities. *)
Definition to_int (x : t) : Z :=
  match x with
  | S754_finite s m e =>
      let v := if 0 <=? e then Z.pos m * 2 ^ e else Z.pos m / 2 ^ (- e) in
      if s then - v else v
  | _ => 0
  end.

(** [std::copysign(1.0f, x)]. [spec_float] keeps no sign for NaN; a NaN
    is given the positive sign. *)
Definition copysign_one (x : t) : t :=
  match x with
  | S754_zero s | S754_infinity s | S754_finite s _ _ =>
      if s then opp one else one
  | S754_nan => one
  end.
End F32.

(** C++ [double]: IEEE-754 binary64, 53 bits of precision; the operations
    the loop applies to times. *)
Module F64.
Definition prec : Z := 53.
Definition emax : Z := 1024.

Definition t := spec_float.

Definition zero : t := S754_zero false.
Definition of_int (z : Z) : t := binary_normalize prec emax z 0 false.
Definition add : t -> t -> t := SFadd prec emax.
Definition div : t -> t -> t := SFdiv prec emax.
Definition ltb : t -> t -> bool := SFltb.
Definition gtb (a b : t) : bool := ltb b a.
End F64.

(* ================================================================= *)
(** ** [std::string] operations used by the sources *)

Module Str.
Definition nl : string := String (ascii_of_nat 10) EmptyString.

Definition chars (s : string) : list ascii := list_ascii_of_string s.
Definition of_chars (l : list ascii) : string := string_of_list_ascii l.

(** [s.find(c)]: index of the first occurrence, [None] for [npos]. *)
Fixpoint find (c : ascii) (s : string) : option nat :=
  match s with
  | EmptyString => None
  | String a s' => if Ascii.eqb a c then Some O else option_map S (find c s')
  end.

(** [s.substr(pos)], for [pos <= s.size()]. *)
Fixpoint substr_from (pos : nat) (s : string) : string :=
  match pos, s with
  | O, _ => s
  | S p, String _ s' => substr_from p s'
  | S _, EmptyString => EmptyString
  end.

(** [s.find(c, pos)]. *)
Definition find_from (c : ascii) (s : string) (pos : nat) : option nat :=
  option_map (fun i => (pos + i)%nat) (find c (substr_from pos s)).

(** [s.substr(pos, len)]. *)
Definition substr (s : string) (pos len : nat) : string := substring pos len s.

(** The characters of [" \t\n\r\f\v"]. *)
Definition is_space (c : ascii) : bool :=
  let n := nat_of_ascii c in
  Nat.eqb n 32 || (Nat.leb 9 n && Nat.leb n 13).

Fixpoint skip_space (l : list ascii) : list ascii :=
  match l with
  | c :: l' => if is_space c then skip_space l' else l
  | [] => []
  end.

(** [trim]: a string of white space only is returned as it is
    ([find_first_not_of] gives [npos]). *)
Definition trim (str : string) : string :=
  let l := chars str in
  if forallb is_space l then str
  else of_chars (rev (skip_space (rev (skip_space l)))).

(** [std::tolower] in the C locale. *)
Definition tolower (c : ascii) : ascii :=
  let n := nat_of_ascii c in
  if Nat.leb 65 n && Nat.leb n 90 then ascii_of_nat (n + 32) else c.

Definition toLower (s : string) : string := of_chars (map tolower (chars s)).

(** The lines that repeated [std::getline] calls read from a stream
    holding [s]: the pieces between newlines, without a last empty one. *)
Fixpoint getlines_aux (cur : list ascii) (s : string) : list string :=
  match s with
  | EmptyString =>
      match cur with
      | [] => []
      | _ => [of_chars (rev cur)]
      end
  | String a s' =>
      if Ascii.eqb a (ascii_of_nat 10)
      then of_chars (rev cur) :: getlines_aux [] s'
      else getlines_aux (a :: cur) s'
  end.

Definition getlines (s : string) : list string := getlines_aux [] s.

Definition head (s : string) : option ascii := String.get 0 s.
Definition back (s : string) : option ascii := last (chars s).
End Str.

(* ================================================================= *)
(** ** src/config.cpp: the parameter record and [loadConfig] *)

(** The outcome of [std::stoi], [std::stoul], [std::stof] and [std::stod]:
    a value, or one of the two exceptions [loadConfig] catches. *)
Inductive conv (A : Type) : Type :=
| Converted (a : A)
| InvalidArgument
| OutOfRange.
Arguments Converted {A} a.
Arguments InvalidArgument {A}.
Arguments OutOfRange {A}.

(** The numeric conversions of the C++ standard library. They are not code
    of this repository; the embedding is parametric in them. *)
Class StdConv := {
  stoi : string -> conv Z;
  stoul : string -> conv Z;
  stof : string -> conv F32.t;
  stod : string -> conv F64.t
}.

Module Config.

(** [struct AppConfig] (config.h is not among the sources; the fields and
    their types are those of the constructor and of the conversions
    [loadConfig] applies to them). *)
Record AppConfig := {
  pwm_min : Z;
  pwm_neutral : Z;
  pwm_normal_max : Z;
  pwm_boost_max : Z;
  pwm_frequency : F32.t;
  joystick_deadzone : Z;
  led_pwm_channel : Z;
  led_pwm_on : Z;
  led_pwm_off : Z;
  led2_pwm_channel : Z;
  led2_pwm_off : Z;
  led2_pwm_on1 : Z;
  led2_pwm_on2 : Z;
  led2_pwm_max : Z;
  led3_pwm_channel : Z;
  led3_pwm_off : Z;
  led3_pwm_on1 : Z;
  led3_pwm_on2 : Z;
  led3_pwm_max : Z;
  led4_pwm_channel : Z;
  led4_pwm_off : Z;
  led4_pwm_on1 : Z;
  led4_pwm_on2 : Z;
  led4_pwm_max : Z;
  led5_pwm_channel : Z;
  led5_pwm_off : Z;
  led5_pwm_on1 : Z;
  led5_pwm_on2 : Z;
  led5_pwm_max : Z;
  smoothing_factor_horizontal : F32.t;
  smoothing_factor_vertical : F32.t;
  kp_roll : F32.t;
  kp_yaw : F32.t;
  yaw_threshold_dps : F32.t;
  yaw_gain : F32.t;
  network_recv_port : Z;
  network_send_port : Z;
  client_host : string;
  connection_timeout_seconds : F64.t;
  sensor_send_interval : Z;
  loop_delay_us : Z;
  gst1_device : string;
  gst1_port : Z;
  gst1_width : Z;
  gst1_height : Z;
  gst1_framerate_num : Z;
  gst1_framerate_den : Z;
  gst1_is_h264_native_source : bool;
  gst1_rtp_payload_type : Z;
  gst1_rtp_config_interval : Z;
  gst2_device : string;
  gst2_port : Z;
  gst2_width : Z;
  gst2_height : Z;
  gst2_framerate_num : Z;
  gst2_framerate_den : Z;
  gst2_is_h264_native_source : bool;
  gst2_rtp_payload_type : Z;
  gst2_rtp_config_interval : Z;
  gst2_x264_bitrate : Z;
  gst2_x264_tune : string;
  gst2_x264_speed_preset : string;
  config_sync_cpp_recv_port : Z;
  config_sync_wpf_host : string;
  config_sync_wpf_recv_port : Z
}.

(** A decimal literal [n / d] of type [float] or [double]: the correctly
    rounded quotient of two exactly represented integers. *)
Definition f32_lit (n d : Z) : F32.t := F32.div (F32.of_int n) (F32.of_int d).
Definition f64_lit (n d : Z) : F64.t := F64.div (F64.of_int n) (F64.of_int d).

(** [AppConfig::AppConfig()]: the default values. *)
Definition AppConfig_default : AppConfig := {|
  pwm_min := 1100; pwm_neutral := 1500; pwm_normal_max := 1900;
  pwm_boost_max := 1900; pwm_frequency := F32.of_int 50;
  joystick_deadzone := 6500;
  led_pwm_channel := 9; led_pwm_on := 1900; led_pwm_off := 1100;
  led2_pwm_channel := 10; led2_pwm_off := 1100; led2_pwm_on1 := 1300;
  led2_pwm_on2 := 1600; led2_pwm_max := 1900;
  led3_pwm_channel := 11; led3_pwm_off := 1100; led3_pwm_on1 := 1300;
  led3_pwm_on2 := 1600; led3_pwm_max := 1900;
  led4_pwm_channel := 12; led4_pwm_off := 1100; led4_pwm_on1 := 1300;
  led4_pwm_on2 := 1600; led4_pwm_max := 1900;
  led5_pwm_channel := 13; led5_pwm_off := 1100; led5_pwm_on1 := 1300;
  led5_pwm_on2 := 1600; led5_pwm_max := 1900;
  smoothing_factor_horizontal := f32_lit 8 100;
  smoothing_factor_vertical := f32_lit 4 100;
  kp_roll := f32_lit 2 10; kp_yaw := f32_lit 15 100;
  yaw_threshold_dps := f32_lit 5 10; yaw_gain := F32.of_int 1000;
  network_recv_port := 12345; network_send_port := 12346;
  client_host := "192.168.4.10";
  connection_timeout_seconds := f64_lit 2 10;
  sensor_send_interval := 10; loop_delay_us := 10000;
  gst1_device := "/dev/video2"; gst1_port := 5000;
  gst1_width := 1280; gst1_height := 720;
  gst1_framerate_num := 30; gst1_framerate_den := 1;
  gst1_is_h264_native_source := true;
  gst1_rtp_payload_type := 96; gst1_rtp_config_interval := 1;
  gst2_device := "/dev/video6"; gst2_port := 5001;
  gst2_width := 1280; gst2_height := 720;
  gst2_framerate_num := 30; gst2_framerate_den := 1;
  gst2_is_h264_native_source := false;
  gst2_rtp_payload_type := 96; gst2_rtp_config_interval := 1;
  gst2_x264_bitrate := 5000; gst2_x264_tune := "zerolatency";
  gst2_x264_speed_preset := "superfast";
  config_sync_cpp_recv_port := 12348;
  config_sync_wpf_host := "192.168.4.10";
  config_sync_wpf_recv_port := 12347
|}.

(** [temp_config.field = conversion(value)]: the assignment happens only
    when the conversion does not throw. *)
Definition assign {E : Type} (field : AppConfig -> E) {set : Setter field}
    (r : conv E) (temp_config : AppConfig) : conv AppConfig :=
  match r with
  | Converted v => Converted (set (constant v) temp_config)
  | InvalidArgument => InvalidArgument
  | OutOfRange => OutOfRange
  end.

Definition conv_map {A B : Type} (f : A -> B) (r : conv A) : conv B :=
  match r with
  | Converted a => Converted (f a)
  | InvalidArgument => InvalidArgument
  | OutOfRange => OutOfRange
  end.

(** [std::stoul] returns an [unsigned long]; the fields are
    [unsigned int]. *)
Definition to_unsigned_int (v : Z) : Z := v mod 2 ^ 32.

Section Parsing.
Context `{StdConv}.

Notation "a == b" := (String.eqb a b) (at level 70, no associativity).

(** The body of the [try] block: the assignment selected by the
    current section and the key. A key or a section the chain does not
    list changes nothing. *)
Definition assign_key (current_section key value : string)
    (temp_config : AppConfig) : conv AppConfig :=
  if current_section == "pwm" then
    if key == "pwm_min" then assign pwm_min (stoi value) temp_config
    else if key == "pwm_neutral" then assign pwm_neutral (stoi value) temp_config
    else if key == "pwm_normal_max" then assign pwm_normal_max (stoi value) temp_config
    else if key == "pwm_boost_max" then assign pwm_boost_max (stoi value) temp_config
    else if key == "pwm_frequency" then assign pwm_frequency (stof value) temp_config
    else Converted temp_config
  else if current_section == "joystick" then
    if key == "deadzone" then assign joystick_deadzone (stoi value) temp_config
    else Converted temp_config
  else if current_section == "led" then
    if key == "channel" then assign led_pwm_channel (stoi value) temp_config
    else if key == "on_value" then assign led_pwm_on (stoi value) temp_config
    else if key == "off_value" then assign led_pwm_off (stoi value) temp_config
    else Converted temp_config
  else if current_section == "led2" then
    if key == "channel" then assign led2_pwm_channel (stoi value) temp_config
    else if key == "off_value" then assign led2_pwm_off (stoi value) temp_config
    else if key == "on1_value" then assign led2_pwm_on1 (stoi value) temp_config
    else if key == "on2_value" then assign led2_pwm_on2 (stoi value) temp_config
    else if key == "max_value" then assign led2_pwm_max (stoi value) temp_config
    else Converted temp_config
  else if current_section == "led3" then
    if key == "channel" then assign led3_pwm_channel (stoi value) temp_config
    else if key == "off_value" then assign led3_pwm_off (stoi value) temp_config
    else if key == "on1_value" then assign led3_pwm_on1 (stoi value) temp_config
    else if key == "on2_value" then assign led3_pwm_on2 (stoi value) temp_config
    else if key == "max_value" then assign led3_pwm_max (stoi value) temp_config
    else Converted temp_config
  else if current_section == "led4" then
    if key == "channel" then assign led4_pwm_channel (stoi value) temp_config
    else if key == "off_value" then assign led4_pwm_off (stoi value) temp_config
    else if key == "on1_value" then assign led4_pwm_on1 (stoi value) temp_config
    else if key == "on2_value" then assign led4_pwm_on2 (stoi value) temp_config
    else if key == "max_value" then assign led4_pwm_max (stoi value) temp_config
    else Converted temp_config
  else if current_section == "led5" then
    if key == "channel" then assign led5_pwm_channel (stoi value) temp_config
    else if key == "off_value" then assign led5_pwm_off (stoi value) temp_config
    else if key == "on1_value" then assign led5_pwm_on1 (stoi value) temp_config
    else if key == "on2_value" then assign led5_pwm_on2 (stoi value) temp_config
    else if key == "max_value" then assign led5_pwm_max (stoi value) temp_config
    else Converted temp_config
  else if current_section == "thruster_control" then
    if key == "smoothing_factor_horizontal"
    then assign smoothing_factor_horizontal (stof value) temp_config
    else if key == "smoothing_factor_vertical"
    then assign smoothing_factor_vertical (stof value) temp_config
    else if key == "kp_roll" then assign kp_roll (stof value) temp_config
    else if key == "kp_yaw" then assign kp_yaw (stof value) temp_config
    else if key == "yaw_threshold_dps" then assign yaw_threshold_dps (stof value) temp_config
    else if key == "yaw_gain" then assign yaw_gain (stof value) temp_config
    else Converted temp_config
  else if current_section == "network" then
    if key == "recv_port" then assign network_recv_port (stoi value) temp_config
    else if key == "send_port" then assign network_send_port (stoi value) temp_config
    else if key == "client_host" then assign client_host (Converted value) temp_config
    else if key == "connection_timeout_seconds"
    then assign connection_timeout_seconds (stod value) temp_config
    else Converted temp_config
  else if current_section == "application" then
    if key == "sensor_send_interval"
    then assign sensor_send_interval (conv_map to_unsigned_int (stoul value)) temp_config
    else if key == "loop_delay_us"
    then assign loop_delay_us (conv_map to_unsigned_int (stoul value)) temp_config
    else Converted temp_config
  else if current_section == "gstreamer_camera_1" then
    if key == "port" then assign gst1_port (stoi value) temp_config
    else if key == "width" then assign gst1_width (stoi value) temp_config
    else if key == "height" then assign gst1_height (stoi value) temp_config
    else if key == "framerate_num" then assign gst1_framerate_num (stoi value) temp_config
    else if key == "framerate_den" then assign gst1_framerate_den (stoi value) temp_config
    else if key == "is_h264_native_source"
    then assign gst1_is_h264_native_source (Converted (Str.toLower value == "true")) temp_config
    else if key == "rtp_payload_type" then assign gst1_rtp_payload_type (stoi value) temp_config
    else if key == "rtp_config_interval"
    then assign gst1_rtp_config_interval (stoi value) temp_config
    else Converted temp_config
  else if current_section == "gstreamer_camera_2" then
    if key == "port" then assign gst2_port (stoi value) temp_config
    else if key == "width" then assign gst2_width (stoi value) temp_config
    else if key == "height" then assign gst2_height (stoi value) temp_config
    else if key == "framerate_num" then assign gst2_framerate_num (stoi value) temp_config
    else if key == "framerate_den" then assign gst2_framerate_den (stoi value) temp_config
    else if key == "is_h264_native_source"
    then assign gst2_is_h264_native_source (Converted (Str.toLower value == "true")) temp_config
    else if key == "rtp_payload_type" then assign gst2_rtp_payload_type (stoi value) temp_config
    else if key == "rtp_config_interval"
    then assign gst2_rtp_config_interval (stoi value) temp_config
    else if key == "x264_bitrate" then assign gst2_x264_bitrate (stoi value) temp_config
    else if key == "x264_tune" then assign gst2_x264_tune (Converted value) temp_config
    else if key == "x264_speed_preset"
    then assign gst2_x264_speed_preset (Converted value) temp_config
    else Converted temp_config
  else if current_section == "config_sync" then
    if key == "cpp_recv_port" then assign config_sync_cpp_recv_port (stoi value) temp_config
    else if key == "wpf_host" then assign config_sync_wpf_host (Converted value) temp_config
    else if key == "wpf_recv_port" then assign config_sync_wpf_recv_port (stoi value) temp_config
    else Converted temp_config
  else Converted temp_config.

(** The variables of the [while (std::getline(file, line))] loop. *)
Record parser := {
  current_section : string;
  temp_config : AppConfig
}.

Definition is_char (c : ascii) (o : option ascii) : bool :=
  match o with
  | Some a => Ascii.eqb a c
  | None => false
  end.

(** One iteration of the loop: [Converted] with the variables after
    the iteration, or the exception that leaves the function. *)
Definition parse_line (raw : string) (st : parser) : conv parser :=
  let line := Str.trim raw in
  if (String.length line =? 0)%nat || is_char "#" (Str.head line)
     || is_char ";" (Str.head line)
  then Converted st
  else if is_char "[" (Str.head line) && is_char "]" (Str.back line)
  then Converted
         {| current_section := Str.toLower (Str.substr line 1 (String.length line - 2));
            temp_config := temp_config st |}
  else
    match Str.find "=" line with
    | None => Converted st
    | Some eq_pos =>
        let key := Str.toLower (Str.trim (Str.substr line 0 eq_pos)) in
        let value := Str.trim (Str.substr_from (eq_pos + 1) line) in
        conv_map (fun c => {| current_section := current_section st; temp_config := c |})
                 (assign_key (current_section st) key value (temp_config st))
    end.

Fixpoint parse_lines (lines : list string) (st : parser) : conv parser :=
  match lines with
  | [] => Converted st
  | line :: rest =>
      match parse_line line st with
      | Converted st' => parse_lines rest st'
      | InvalidArgument => InvalidArgument
      | OutOfRange => OutOfRange
      end
  end.

(** The variables before the first line: no section, the defaults of
    [AppConfig temp_config]. *)
Definition parser_initial : parser :=
  {| current_section := EmptyString; temp_config := AppConfig_default |}.

(** [loadConfig]: [file] is the content of the configuration file,
    [None] when it cannot be opened; [g_config] is the shared record.
    The result is the returned flag and the shared record afterwards. *)
Definition loadConfig (file : option string) (g_config : AppConfig)
    : bool * AppConfig :=
  match file with
  | None => (false, g_config)
  | Some content =>
      match parse_lines (Str.getlines content) parser_initial with
      | Converted st => (true, temp_config st)
      | InvalidArgument | OutOfRange => (false, g_config)
      end
  end.
End Parsing.

End Config.
Export Config.

(* ================================================================= *)
(** ** Data exchanged with the external collaborators *)

(** [struct GamepadData] (gamepad.h is not among the sources): the two
    stick axis pairs and the button bit mask. [GamepadData{}] is
    [GamepadData_zero]. *)
Record GamepadData := {
  leftThumbX : Z;
  leftThumbY : Z;
  rightThumbX : Z;
  rightThumbY : Z;
  buttons : Z
}.

Definition GamepadData_zero : GamepadData :=
  {| leftThumbX := 0; leftThumbY := 0; rightThumbX := 0; rightThumbY := 0;
     buttons := 0 |}.

(** The button masks of [enum GamepadButton] and [parseGamepadData], both
    of gamepad.h/gamepad.cpp, which are not among the sources: the
    embedding is parametric in them. *)
Class GamepadLib := {
  GamepadButton_Y : Z;
  GamepadButton_DPadUp : Z;
  GamepadButton_DPadDown : Z;
  GamepadButton_DPadLeft : Z;
  GamepadButton_DPadRight : Z;
  parseGamepadData : string -> GamepadData
}.

(** [struct AxisData]. *)
Module AxisData.
Record t := { x : F32.t; y : F32.t; z : F32.t }.
End AxisData.

(** The calls that leave the control core, in the order they are made. *)
Inductive Event :=
| navigator_init
| set_pwm_enable (state : bool)
| set_pwm_freq_hz (freq : F32.t)
| set_pwm_channel_duty_cycle (channel : Z) (duty_cycle : F32.t)
| network_send (payload : string)
| network_close
| config_sync_start
| config_sync_stop
| start_gstreamer_pipelines
| stop_gstreamer_pipelines.

#[global] Instance spec_float_inhabited : Inhabited spec_float :=
  populate (S754_zero false).

(* ================================================================= *)
(** ** thruster_control.cpp *)

Module ThrusterControl.

Definition NUM_THRUSTERS : nat := 6.

Inductive LedState := OFF | ON | ON1 | ON2 | MAX.

(** The file-scope variables and the function-local statics of
    [thruster_update]. *)
Record statics := {
  current_pwm_values : list F32.t;
  current_led_state : LedState;
  current_led2_state : LedState;
  current_led3_state : LedState;
  current_led4_state : LedState;
  current_led5_state : LedState;
  y_button_previously_pressed : bool;
  dpad_up_button_previously_pressed : bool;
  dpad_down_button_previously_pressed : bool;
  dpad_left_button_previously_pressed : bool;
  dpad_right_button_previously_pressed : bool
}.

(** The values at program start (static storage is zero-initialised). *)
Definition statics_initial : statics := {|
  current_pwm_values := replicate NUM_THRUSTERS F32.zero;
  current_led_state := OFF;
  current_led2_state := OFF;
  current_led3_state := OFF;
  current_led4_state := OFF;
  current_led5_state := OFF;
  y_button_previously_pressed := false;
  dpad_up_button_previously_pressed := false;
  dpad_down_button_previously_pressed := false;
  dpad_left_button_previously_pressed := false;
  dpad_right_button_previously_pressed := false
|}.

Definition map_value (x in_min in_max out_min out_max : F32.t) : F32.t :=
  if F32.eqb in_max in_min then out_min
  else
    let x := F32.max in_min (F32.min x in_max) in
    F32.add
      (F32.div (F32.mul (F32.sub x in_min) (F32.sub out_max out_min))
               (F32.sub in_max in_min))
      out_min.

Definition smooth_interpolate (current_value target_value smoothing_factor : F32.t)
    : F32.t :=
  F32.add current_value (F32.mul (F32.sub target_value current_value) smoothing_factor).

(** The two steps of [set_thruster_pwm]. *)
Definition clamped_pwm (g_config : AppConfig) (pulse_width_us : Z) : Z :=
  Z.max (pwm_min g_config) (Z.min pulse_width_us (pwm_boost_max g_config)).

Definition duty_cycle (g_config : AppConfig) (clamped : Z) : F32.t :=
  F32.div (F32.of_int clamped)
          (F32.div (F32.of_int 1000000) (pwm_frequency g_config)).

Definition set_thruster_pwm (g_config : AppConfig) (channel pulse_width_us : Z)
    : list Event :=
  [set_pwm_channel_duty_cycle channel
     (duty_cycle g_config (clamped_pwm g_config pulse_width_us))].

(** The body of the loops [for (i = 0; i < NUM_THRUSTERS; ++i)] of
    [thruster_init], [thruster_disable] and [thruster_set_all_pwm]. *)
Definition set_all (g_config : AppConfig) (pwm_value : Z) (st : statics)
    : statics * list Event :=
  foldl (fun '(st, evs) i =>
           (st{{ current_pwm_values ::= <[i := F32.of_int pwm_value]> }},
            evs ++ set_thruster_pwm g_config (Z.of_nat i) pwm_value))
        (st, []) (seq 0 NUM_THRUSTERS).

(** The PWM value of an LED state: LED 1, then LEDs 2 to 5. *)
Definition led_pwm_val (g_config : AppConfig) (s : LedState) : Z :=
  match s with
  | ON => led_pwm_on g_config
  | _ => led_pwm_off g_config
  end.

Definition multi_led_pwm_val (off on1 on2 max : Z) (s : LedState) : Z :=
  match s with
  | ON1 => on1
  | ON2 => on2
  | MAX => max
  | _ => off
  end.

Definition led2_pwm_val (g : AppConfig) : LedState -> Z :=
  multi_led_pwm_val (led2_pwm_off g) (led2_pwm_on1 g) (led2_pwm_on2 g) (led2_pwm_max g).
Definition led3_pwm_val (g : AppConfig) : LedState -> Z :=
  multi_led_pwm_val (led3_pwm_off g) (led3_pwm_on1 g) (led3_pwm_on2 g) (led3_pwm_max g).
Definition led4_pwm_val (g : AppConfig) : LedState -> Z :=
  multi_led_pwm_val (led4_pwm_off g) (led4_pwm_on1 g) (led4_pwm_on2 g) (led4_pwm_max g).
Definition led5_pwm_val (g : AppConfig) : LedState -> Z :=
  multi_led_pwm_val (led5_pwm_off g) (led5_pwm_on1 g) (led5_pwm_on2 g) (led5_pwm_max g).

(** The writes of the five LED channels from the current LED states. *)
Definition apply_leds (g : AppConfig) (st : statics) : list Event :=
  set_thruster_pwm g (led_pwm_channel g) (led_pwm_val g (current_led_state st))
  ++ set_thruster_pwm g (led2_pwm_channel g) (led2_pwm_val g (current_led2_state st))
  ++ set_thruster_pwm g (led3_pwm_channel g) (led3_pwm_val g (current_led3_state st))
  ++ set_thruster_pwm g (led4_pwm_channel g) (led4_pwm_val g (current_led4_state st))
  ++ set_thruster_pwm g (led5_pwm_channel g) (led5_pwm_val g (current_led5_state st)).

(** [thruster_init]. [file] is the snapshot /tmp/rov_led_state.dat, [None]
    when it does not exist; the read succeeds when it holds five states.
    The result is the statics, the snapshot afterwards (removed once
    opened) and the driver calls. *)
Definition thruster_init (g_config : AppConfig) (st : statics)
    (file : option (list LedState))
    : statics * option (list LedState) * list Event :=
  let '(st, evs) := set_all g_config (pwm_min g_config) st in
  let st := st{{ current_led_state := OFF; current_led2_state := OFF;
                 current_led3_state := OFF; current_led4_state := OFF;
                 current_led5_state := OFF }} in
  let st :=
    match file with
    | Some (s1 :: s2 :: s3 :: s4 :: s5 :: _) =>
        st{{ current_led_state := s1; current_led2_state := s2;
             current_led3_state := s3; current_led4_state := s4;
             current_led5_state := s5 }}
    | _ => st
    end in
  (st, None,
   [set_pwm_enable true; set_pwm_freq_hz (pwm_frequency g_config)]
   ++ evs ++ apply_leds g_config st).

Definition thruster_disable (g_config : AppConfig) (st : statics)
    : statics * list Event :=
  let '(st, evs) := set_all g_config (pwm_min g_config) st in
  (st,
   evs
   ++ set_thruster_pwm g_config (led_pwm_channel g_config) (led_pwm_off g_config)
   ++ set_thruster_pwm g_config (led2_pwm_channel g_config) (led2_pwm_off g_config)
   ++ set_thruster_pwm g_config (led3_pwm_channel g_config) (led3_pwm_off g_config)
   ++ set_thruster_pwm g_config (led4_pwm_channel g_config) (led4_pwm_off g_config)
   ++ set_thruster_pwm g_config (led5_pwm_channel g_config) (led5_pwm_off g_config)
   ++ [set_pwm_enable false]).

Definition thruster_set_all_pwm (g_config : AppConfig) (pwm_value : Z) (st : statics)
    : statics * list Event :=
  set_all g_config pwm_value st.

(** *** The horizontal mixer, [update_horizontal_thrusters] *)

Definition lx_active (g : AppConfig) (data : GamepadData) : bool :=
  joystick_deadzone g <? Z.abs (leftThumbX data).
Definition rx_active (g : AppConfig) (data : GamepadData) : bool :=
  joystick_deadzone g <? Z.abs (rightThumbX data).

(** [map_value] applied to a negative and to a positive stick deflection,
    mapped onto [pwm_min, pwm_normal_max] and converted to [int]. *)
Definition map_negative_axis (g : AppConfig) (v : Z) : Z :=
  F32.to_int
    (map_value (F32.of_int v) (F32.of_int (-32768))
               (F32.of_int (- joystick_deadzone g))
               (F32.of_int (pwm_normal_max g)) (F32.of_int (pwm_min g))).

Definition map_positive_axis (g : AppConfig) (v : Z) : Z :=
  F32.to_int
    (map_value (F32.of_int v) (F32.of_int (joystick_deadzone g))
               (F32.of_int 32767)
               (F32.of_int (pwm_min g)) (F32.of_int (pwm_normal_max g))).

(** The array [pwm_lx]: the contribution of Lx (rotation). *)
Definition pwm_lx (g : AppConfig) (data : GamepadData) : list Z :=
  let init := replicate 4 (pwm_min g) in
  if leftThumbX data <? - joystick_deadzone g then
    let val := map_negative_axis g (leftThumbX data) in
    <[2%nat := val]> (<[1%nat := val]> init)
  else if joystick_deadzone g <? leftThumbX data then
    let val := map_positive_axis g (leftThumbX data) in
    <[3%nat := val]> (<[0%nat := val]> init)
  else init.

(** The array [pwm_rx]: the contribution of Rx (strafe). *)
Definition pwm_rx (g : AppConfig) (data : GamepadData) : list Z :=
  let init := replicate 4 (pwm_min g) in
  if rightThumbX data <? - joystick_deadzone g then
    let val := map_negative_axis g (rightThumbX data) in
    <[3%nat := val]> (<[1%nat := val]> init)
  else if joystick_deadzone g <? rightThumbX data then
    let val := map_positive_axis g (rightThumbX data) in
    <[2%nat := val]> (<[0%nat := val]> init)
  else init.

(** [boost_add]. *)
Definition boost_add (g : AppConfig) (data : GamepadData) : Z :=
  let boost_range := pwm_boost_max g - pwm_normal_max g in
  let abs_lx := Z.abs (leftThumbX data) in
  let abs_rx := Z.abs (rightThumbX data) in
  let weaker_input_abs := Z.min abs_lx abs_rx in
  F32.to_int
    (map_value (F32.of_int weaker_input_abs) (F32.of_int (joystick_deadzone g))
               (F32.of_int 32768) (F32.of_int 0) (F32.of_int boost_range)).

(** [target_pwm_out] after the combination of the two stick
    contributions, before the gyro corrections. *)
Definition stick_targets (g : AppConfig) (data : GamepadData) : list Z :=
  let lx := pwm_lx g data in
  let rx := pwm_rx g data in
  let mx (i : nat) := Z.max (lx !!! i) (rx !!! i) in
  if lx_active g data && rx_active g data then
    let boost_add := boost_add g data in
    if (leftThumbX data <? 0) && (rightThumbX data <? 0) then
      [mx 0%nat; mx 1%nat + boost_add; mx 2%nat; mx 3%nat]
    else if (leftThumbX data <? 0) && (0 <? rightThumbX data) then
      [mx 0%nat; mx 1%nat; mx 2%nat + boost_add; mx 3%nat]
    else if (0 <? leftThumbX data) && (rightThumbX data <? 0) then
      [mx 0%nat; mx 1%nat; mx 2%nat; mx 3%nat + boost_add]
    else
      [mx 0%nat + boost_add; mx 1%nat; mx 2%nat; mx 3%nat]
  else
    [mx 0%nat; mx 1%nat; mx 2%nat; mx 3%nat].

(** One gyro correction of the roll/yaw stabilisation: subtracted from
    channels 0 and 3, added to channels 1 and 2. *)
Definition add_correction (correction : Z) (target : list Z) : list Z :=
  [target !!! 0%nat - correction; target !!! 1%nat + correction;
   target !!! 2%nat + correction; target !!! 3%nat - correction].

Definition correction_pwm_roll (g : AppConfig) (gyro_data : AxisData.t) : Z :=
  F32.to_int (F32.mul (AxisData.x gyro_data) (kp_roll g)).
Definition correction_pwm_yaw (g : AppConfig) (gyro_data : AxisData.t) : Z :=
  F32.to_int (F32.mul (AxisData.z gyro_data) (kp_yaw g)).

(** The block [if (rx_active)]. *)
Definition stabilize (g : AppConfig) (data : GamepadData) (gyro_data : AxisData.t)
    (target : list Z) : list Z :=
  if rx_active g data then
    add_correction (correction_pwm_yaw g gyro_data)
      (add_correction (correction_pwm_roll g gyro_data) target)
  else target.

(** [yaw_pwm] of the block [if (!lx_active)], after its clamp. *)
Definition yaw_pwm (g : AppConfig) (gyro_data : AxisData.t) : Z :=
  let yaw_rate := F32.opp (AxisData.z gyro_data) in
  Z.max (-400) (Z.min 400 (F32.to_int (F32.mul yaw_rate (F32.opp (yaw_gain g))))).

Definition yaw_above_threshold (g : AppConfig) (gyro_data : AxisData.t) : bool :=
  F32.gtb (F32.abs (F32.opp (AxisData.z gyro_data))) (yaw_threshold_dps g).

(** The block [if (!lx_active)]. *)
Definition idle_yaw (g : AppConfig) (data : GamepadData) (gyro_data : AxisData.t)
    (target : list Z) : list Z :=
  if negb (lx_active g data) then
    if yaw_above_threshold g gyro_data then
      let yaw_pwm := yaw_pwm g gyro_data in
      if yaw_pwm <? 0 then
        <[3%nat := Z.min (pwm_boost_max g) (target !!! 3%nat + Z.abs yaw_pwm)]>
          (<[0%nat := Z.min (pwm_boost_max g) (target !!! 0%nat + Z.abs yaw_pwm)]> target)
      else
        <[2%nat := Z.min (pwm_boost_max g) (target !!! 2%nat + yaw_pwm)]>
          (<[1%nat := Z.min (pwm_boost_max g) (target !!! 1%nat + yaw_pwm)]> target)
    else target
  else target.

Definition update_horizontal_thrusters (g_config : AppConfig) (data : GamepadData)
    (gyro_data : AxisData.t) : list Z :=
  idle_yaw g_config data gyro_data
    (stabilize g_config data gyro_data (stick_targets g_config data)).

Definition calculate_forward_reverse_pwm (g_config : AppConfig) (value : Z) : Z :=
  if value <=? joystick_deadzone g_config then pwm_min g_config
  else
    F32.to_int
      (map_value (F32.of_int value) (F32.of_int (joystick_deadzone g_config))
                 (F32.of_int 32767) (F32.of_int (pwm_min g_config))
                 (F32.of_int (pwm_boost_max g_config))).

(** *** [thruster_update] *)

(** Channels 0 to 3: [current += (target - current) * factor]. *)
Definition smooth_horizontal (g : AppConfig) (target : list Z) (current : list F32.t)
    : list F32.t :=
  foldl (fun cur i =>
           <[i := smooth_interpolate (cur !!! i) (F32.of_int (target !!! i))
                    (smoothing_factor_horizontal g)]> cur)
        current (seq 0 4).

(** Channels 4 and 5: smoothed only while accelerating. *)
Definition smooth_forward (g : AppConfig) (target_forward_val current : F32.t) : F32.t :=
  if F32.gtb target_forward_val current
  then smooth_interpolate current target_forward_val (smoothing_factor_vertical g)
  else target_forward_val.

(** [(gamepad_data.buttons & mask)] converted to [bool]. *)
Definition button_pressed (buttons mask : Z) : bool :=
  negb (Z.land buttons mask =? 0).

(** LED 1: OFF <-> ON. *)
Definition toggle_led (s : LedState) : LedState :=
  match s with
  | OFF => ON
  | _ => OFF
  end.

(** LEDs 2 to 5: OFF -> ON1 -> ON2 -> MAX -> OFF. *)
Definition cycle_led (s : LedState) : LedState :=
  match s with
  | OFF => ON1
  | ON1 => ON2
  | ON2 => MAX
  | _ => OFF
  end.

(** [if (currently_pressed && !previously_pressed) state = next(state)]. *)
Definition on_rising_edge (currently_pressed previously_pressed : bool)
    (next : LedState -> LedState) (s : LedState) : LedState :=
  if currently_pressed && negb previously_pressed then next s else s.

Section Update.
Context `{GamepadLib}.

Definition thruster_update (g_config : AppConfig) (st : statics)
    (gamepad_data : GamepadData) (gyro_data : AxisData.t)
    : statics * list Event :=
  let target_horizontal_pwm :=
    update_horizontal_thrusters g_config gamepad_data gyro_data in
  let target_forward_pwm :=
    calculate_forward_reverse_pwm g_config (rightThumbY gamepad_data) in
  let cur := smooth_horizontal g_config target_horizontal_pwm (current_pwm_values st) in
  let target_forward_val := F32.of_int target_forward_pwm in
  let cur := <[4%nat := smooth_forward g_config target_forward_val (cur !!! 4%nat)]> cur in
  let cur := <[5%nat := smooth_forward g_config target_forward_val (cur !!! 5%nat)]> cur in
  let horizontal_writes :=
    flat_map (fun i => set_thruster_pwm g_config (Z.of_nat i) (F32.to_int (cur !!! i)))
             (seq 0 4) in
  let smoothed_forward_pwm := F32.to_int (cur !!! 4%nat) in
  let y_button_currently_pressed :=
    button_pressed (buttons gamepad_data) GamepadButton_Y in
  let dpad_up_button_currently_pressed :=
    button_pressed (buttons gamepad_data) GamepadButton_DPadUp in
  let dpad_down_button_currently_pressed :=
    button_pressed (buttons gamepad_data) GamepadButton_DPadDown in
  let dpad_left_button_currently_pressed :=
    button_pressed (buttons gamepad_data) GamepadButton_DPadLeft in
  let dpad_right_button_currently_pressed :=
    button_pressed (buttons gamepad_data) GamepadButton_DPadRight in
  let st' := {|
    current_pwm_values := cur;
    current_led_state :=
      on_rising_edge y_button_currently_pressed (y_button_previously_pressed st)
                     toggle_led (current_led_state st);
    current_led2_state :=
      on_rising_edge dpad_up_button_currently_pressed
                     (dpad_up_button_previously_pressed st)
                     cycle_led (current_led2_state st);
    current_led3_state :=
      on_rising_edge dpad_down_button_currently_pressed
                     (dpad_down_button_previously_pressed st)
                     cycle_led (current_led3_state st);
    current_led4_state :=
      on_rising_edge dpad_left_button_currently_pressed
                     (dpad_left_button_previously_pressed st)
                     cycle_led (current_led4_state st);
    current_led5_state :=
      on_rising_edge dpad_right_button_currently_pressed
                     (dpad_right_button_previously_pressed st)
                     cycle_led (current_led5_state st);
    y_button_previously_pressed := y_button_currently_pressed;
    dpad_up_button_previously_pressed := dpad_up_button_currently_pressed;
    dpad_down_button_previously_pressed := dpad_down_button_currently_pressed;
    dpad_left_button_previously_pressed := dpad_left_button_currently_pressed;
    dpad_right_button_previously_pressed := dpad_right_button_currently_pressed
  |} in
  (st',
   horizontal_writes
   ++ set_thruster_pwm g_config 4 smoothed_forward_pwm
   ++ set_thruster_pwm g_config 5 smoothed_forward_pwm
   ++ apply_leds g_config st').
End Update.

Definition led_state_to_string (state : LedState) : string :=
  match state with
  | OFF => "pwm_off"
  | ON => "pwm_on"
  | ON1 => "pwm_on1"
  | ON2 => "pwm_on2"
  | MAX => "pwm_max"
  end.

Definition get_led_state_string (st : statics) : string :=
  "led_status:led=" +:+ led_state_to_string (current_led_state st)
  +:+ ",led2=" +:+ led_state_to_string (current_led2_state st)
  +:+ ",led3=" +:+ led_state_to_string (current_led3_state st)
  +:+ ",led4=" +:+ led_state_to_string (current_led4_state st)
  +:+ ",led5=" +:+ led_state_to_string (current_led5_state st).

(** [thruster_save_led_state_to_file]: the snapshot afterwards.
    [writable] tells whether the file can be opened for writing. *)
Definition thruster_save_led_state_to_file (writable : bool) (st : statics)
    (file : option (list LedState)) : option (list LedState) :=
  if writable
  then Some [current_led_state st; current_led2_state st; current_led3_state st;
             current_led4_state st; current_led5_state st]
  else file.

End ThrusterControl.
Export ThrusterControl.

(* ================================================================= *)
(** ** The shared state of the process *)

(** The globals the two threads share, the files they use and the trace
    of external calls. [config_ini] is the content of config.ini ([None]
    when it cannot be opened for reading), [config_ini_writable] tells
    whether it can be opened for writing; [led_state_file] is the snapshot
    /tmp/rov_led_state.dat. *)
Record World := {
  g_config : AppConfig;
  g_config_updated_flag : bool;
  g_sync_config_data : gmap string (gmap string string);
  config_ini : option string;
  config_ini_writable : bool;
  led_state_file : option (list LedState);
  thruster : statics;
  trace : list Event
}.

Definition emit (evs : list Event) (w : World) : World :=
  w{{ trace ::= fun t => t ++ evs }}.

(** A call of one of the thruster functions on the shared state. *)
Definition call_thruster (f : AppConfig -> statics -> statics * list Event)
    (w : World) : World :=
  let '(st, evs) := f (g_config w) (thruster w) in
  emit evs (w{{ thruster := st }}).

(* ================================================================= *)
(** ** src/config_synchronizer.cpp *)

Module ConfigSynchronizer.

(** [g_sync_config_data[section][key] = value]. *)
Definition upsert (section key value : string)
    (m : gmap string (gmap string string)) : gmap string (gmap string string) :=
  <[section := <[key := value]> (default ∅ (m !! section))]> m.

(** What one line of a payload holds: the section, key and value of a
    line the loop of [update_config_from_string] applies, [None] for a
    line it skips. *)
Definition parse_update_line (line : string) : option (string * string * string) :=
  if (String.length line =? 0)%nat || negb (is_char "[" (Str.head line)) then None
  else
    let section_end := Str.find_from "]" line 0 in
    let equals_pos :=
      match section_end with
      | Some p => Str.find_from "=" line p
      | None => None
      end in
    match section_end, equals_pos with
    | Some section_end, Some equals_pos =>
        let section := Str.substr line 1 (section_end - 1) in
        let key := Str.substr line (section_end + 1) (equals_pos - (section_end + 1)) in
        let value := Str.substr_from (equals_pos + 1) line in
        Some (section, key, value)
    | _, _ => None
    end.

(** One iteration of the [while (std::getline(ss, line, '\n'))] loop on
    the map and [updates_count]. *)
Definition update_line (acc : gmap string (gmap string string) * Z) (line : string)
    : gmap string (gmap string string) * Z :=
  match parse_update_line line with
  | Some (section, key, value) => (upsert section key value acc.1, acc.2 + 1)
  | None => acc
  end.

(** Iteration over a [std::map<std::string, V>]: by increasing key. *)
Definition key_le {V : Type} (a b : string * V) : Prop :=
  String.leb a.1 b.1 = true.

#[global] Instance key_le_dec {V : Type} (a b : string * V) : Decision (key_le a b).
Proof. unfold key_le. apply _. Defined.

Definition entries {V : Type} (m : gmap string V) : list (string * V) :=
  merge_sort key_le (map_to_list m).

Definition concat_strings (l : list string) : string :=
  foldr String.append EmptyString l.

(** The text [save_config] writes. *)
Definition config_file_text (m : gmap string (gmap string string)) : string :=
  concat_strings
    (map (fun sec : string * gmap string string =>
            "[" +:+ sec.1 +:+ "]" +:+ Str.nl
            +:+ concat_strings
                  (map (fun kv : string * string => kv.1 +:+ " = " +:+ kv.2 +:+ Str.nl)
                       (entries sec.2))
            +:+ Str.nl)
         (entries m)).

Definition save_config (w : World) : World :=
  if config_ini_writable w
  then w{{ config_ini := Some (config_file_text (g_sync_config_data w)) }}
  else w.

Definition update_config_from_string (data : string) (w : World) : World :=
  let '(m, updates_count) :=
    foldl update_line (g_sync_config_data w, 0) (Str.getlines data) in
  let w := w{{ g_sync_config_data := m }} in
  if 0 <? updates_count
  then (save_config w){{ g_config_updated_flag := true }}
  else w.

End ConfigSynchronizer.
Export ConfigSynchronizer.

(* ================================================================= *)
(** ** src/main.cpp *)

Module Main.

Record timeval := { tv_sec : Z; tv_usec : Z }.

(** [struct NetworkContext] (network.h is not among the sources): the two
    fields the loop reads. *)
Record NetworkContext := {
  client_addr_known : bool;
  last_successful_recv_time : timeval
}.

(** What the environment answers during one iteration of the loop:
    [gettimeofday], [network_receive] (its return value, the buffer and
    the context it leaves; network.cpp is not among the sources),
    [read_gyro], [read_accel] and [read_and_format_sensor_data] ([None]
    when it fails). *)
Record TickEnv := {
  current_time_tv : timeval;
  recv_len : Z;
  recv_buffer : string;
  net_ctx_after_receive : NetworkContext;
  gyro : AxisData.t;
  accel : AxisData.t;
  sensor_buffer : option string
}.

(** The variables of [main] that live across iterations, and the global
    [prev_accel_z_sign]. *)
Record Loop := {
  net_ctx : NetworkContext;
  latest_gamepad_data : GamepadData;
  current_gyro_data : AxisData.t;
  loop_counter : Z;
  running : bool;
  currently_in_failsafe : bool;
  prev_accel_z_sign : F32.t
}.

Definition Loop_initial : Loop := {|
  net_ctx := {| client_addr_known := false;
                last_successful_recv_time := {| tv_sec := 0; tv_usec := 0 |} |};
  latest_gamepad_data := GamepadData_zero;
  current_gyro_data :=
    {| AxisData.x := F32.zero; AxisData.y := F32.zero; AxisData.z := F32.zero |};
  loop_counter := 0;
  running := true;
  currently_in_failsafe := true;
  prev_accel_z_sign := F32.zero
|}.

(** [time_since_last_packet]. *)
Definition time_since_last_packet (ctx : NetworkContext) (now : timeval) : F64.t :=
  if client_addr_known ctx then
    F64.add
      (F64.of_int (tv_sec now - tv_sec (last_successful_recv_time ctx)))
      (F64.div (F64.of_int (tv_usec now - tv_usec (last_successful_recv_time ctx)))
               (F64.of_int 1000000))
  else F64.zero.

(** The accel.z sign-flip check: the new value of [running]. *)
Definition rollover_check (prev_accel_z_sign : F32.t) (current_accel : AxisData.t)
    (running : bool) : bool :=
  let current_accel_z_sign := F32.copysign_one (AxisData.z current_accel) in
  if F32.eqb prev_accel_z_sign F32.zero then running
  else if F32.neb current_accel_z_sign prev_accel_z_sign
          && F32.neb (AxisData.z current_accel) F32.zero
  then false
  else running.

Section Loop.
Context `{StdConv} `{GamepadLib}.

(** The hot reload at the head of an iteration. *)
Definition reload (w : World) : World :=
  if g_config_updated_flag w
  then w{{ g_config := (loadConfig (config_ini w) (g_config w)).2;
           g_config_updated_flag := false }}
  else w.

(** The branch [if (just_received_packet)]. *)
Definition on_packet (e : TickEnv) (l : Loop) (w : World) : Loop * World :=
  let '(l, w) :=
    if currently_in_failsafe l
    then (l{{ currently_in_failsafe := false }},
          emit [network_send (get_led_state_string (thruster w))] w)
    else (l, w) in
  let received_str := Str.substr (recv_buffer e) 0 (Z.to_nat (recv_len e)) in
  (l{{ latest_gamepad_data := parseGamepadData received_str }}, w).

(** The branch taken when no datagram was received. *)
Definition on_silence (time_since_last_packet current_connection_timeout : F64.t)
    (current_pwm_min : Z) (l : Loop) (w : World) : Loop * World :=
  if client_addr_known (net_ctx l)
     && F64.gtb time_since_last_packet current_connection_timeout
  then
    if negb (currently_in_failsafe l)
    then (l{{ latest_gamepad_data := GamepadData_zero;
              currently_in_failsafe := true;
              running := false }},
          call_thruster (fun g => thruster_set_all_pwm g current_pwm_min) w)
    else (l, w)
  else (l, w).

(** The block [if (!currently_in_failsafe && running)] and its [else]. *)
Definition normal_operation (e : TickEnv) (current_sensor_send_interval : Z)
    (l : Loop) (w : World) : Loop * World :=
  if negb (currently_in_failsafe l) && running l then
    let l := l{{ current_gyro_data := gyro e }} in
    let w := call_thruster
               (fun g st => thruster_update g st (latest_gamepad_data l)
                                            (current_gyro_data l)) w in
    let l := l{{ running := rollover_check (prev_accel_z_sign l) (accel e) (running l);
                 prev_accel_z_sign := F32.copysign_one (AxisData.z (accel e)) }} in
    if current_sensor_send_interval <=? loop_counter l then
      (l{{ loop_counter := 0 }},
       match sensor_buffer e with
       | Some s => emit [network_send s] w
       | None => w
       end)
    else (l{{ loop_counter ::= Z.succ }}, w)
  else (l{{ loop_counter := 0 }}, w).

(** The first part of an iteration, up to the end of the
    [if (just_received_packet) ... else ...] statement. *)
Definition receive_phase (e : TickEnv) (l : Loop) (w : World) : Loop * World :=
  let current_connection_timeout := connection_timeout_seconds (g_config w) in
  let current_pwm_min := pwm_min (g_config w) in
  let w := reload w in
  let time_since_last_packet :=
    time_since_last_packet (net_ctx l) (current_time_tv e) in
  let l := l{{ net_ctx := net_ctx_after_receive e }} in
  let just_received_packet := 0 <? recv_len e in
  if just_received_packet then on_packet e l w
  else on_silence time_since_last_packet current_connection_timeout
                  current_pwm_min l w.

(** One iteration of [while (running)]. The local copies of the
    parameters are taken before the hot reload. *)
Definition tick (e : TickEnv) (l : Loop) (w : World) : Loop * World :=
  let current_sensor_send_interval := sensor_send_interval (g_config w) in
  let '(l, w) := receive_phase e l w in
  normal_operation e current_sensor_send_interval l w.

(** The clean-up after the loop. *)
Definition cleanup (w : World) : World :=
  let w := emit [config_sync_stop] w in
  let final_pwm_min := pwm_min (g_config w) in
  let w := call_thruster (fun g => thruster_set_all_pwm g final_pwm_min) w in
  let w := call_thruster thruster_disable w in
  let w := emit [network_close] w in
  emit [stop_gstreamer_pipelines] w.

(** What happens during one iteration: the payloads the
    synchronisation thread applies since the previous iteration, then
    the answers of the environment to the iteration itself. *)
Record Step := {
  sync_payloads : list string;
  tick_env : TickEnv
}.

Definition step (s : Step) (l : Loop) (w : World) : Loop * World :=
  tick (tick_env s) l (foldl (fun w data => update_config_from_string data w)
                             w (sync_payloads s)).

(** The loop over the iterations the environment describes; it stops
    at the first iteration that finds [running] false. *)
Fixpoint main_loop (steps : list Step) (l : Loop) (w : World) : Loop * World :=
  match steps with
  | [] => (l, w)
  | s :: rest =>
      if running l
      then let '(l, w) := step s l w in main_loop rest l w
      else (l, w)
  end.

(** [main]: the exit status and the final state, [None] while the loop
    is still running at the end of [steps]. [network_init_ok] is the
    result of [network_init]; [thruster_init] always returns true. The
    destructor of [config_sync] calls [stop] once more when [main]
    returns after [config_sync.start()]. *)
Definition main (network_init_ok : bool) (steps : list Step) (w : World)
    : option (Z * World) :=
  let '(ok, g) := loadConfig (config_ini w) (g_config w) in
  let w := w{{ g_config := g }} in
  if negb ok then Some (-1, w)
  else
    let w := emit [config_sync_start; navigator_init] w in
    if negb network_init_ok then Some (-1, emit [config_sync_stop] w)
    else
      let '(st, file, evs) :=
        thruster_init (g_config w) (thruster w) (led_state_file w) in
      let w := emit evs (w{{ thruster := st; led_state_file := file }}) in
      let w := emit [start_gstreamer_pipelines] w in
      let initial_pwm_min := pwm_min (g_config w) in
      let w := call_thruster (fun g => thruster_set_all_pwm g initial_pwm_min) w in
      let '(l, w) := main_loop steps Loop_initial w in
      if running l then None
      else Some (0, emit [config_sync_stop] (cleanup w)).
End Loop.

End Main.
Export Main.

(* ================================================================= *)
(** ** Instances for the examples *)

Module Examples.

(** The value of the longest prefix of decimal digits of [l], with the
    number of digits read and the rest. *)
Fixpoint read_digits (l : list ascii) (acc : Z) (n : nat) : Z * nat * list ascii :=
  match l with
  | c :: l' =>
      let d := nat_of_ascii c in
      if Nat.leb 48 d && Nat.leb d 57
      then read_digits l' (10 * acc + Z.of_nat (d - 48)) (S n)
      else (acc, n, l)
  | [] => (acc, n, l)
  end.

Definition read_sign (l : list ascii) : bool * list ascii :=
  match l with
  | c :: l' =>
      if Ascii.eqb c "-" then (true, l')
      else if Ascii.eqb c "+" then (false, l')
      else (false, l)
  | [] => (false, l)
  end.

(** [strtol]-like reading of a decimal integer: white space, an optional
    sign, digits; what follows is ignored. [None] without a digit. *)
Definition read_int (s : string) : option Z :=
  let '(neg, l) := read_sign (Str.skip_space (Str.chars s)) in
  let '(v, n, _) := read_digits l 0 0 in
  if Nat.eqb n 0 then None else Some (if neg then - v else v).

(** A decimal number [digits[.digits]] as the quotient of two integers. *)
Definition read_decimal (s : string) : option (Z * Z) :=
  let '(neg, l) := read_sign (Str.skip_space (Str.chars s)) in
  let '(v, n, l) := read_digits l 0 0 in
  let '(v, m, k) :=
    match l with
    | c :: l' =>
        if Ascii.eqb c "." then
          let '(v', m, _) := read_digits l' v 0 in (v', m, m)
        else (v, O, O)
    | [] => (v, O, O)
    end in
  if Nat.eqb (n + m) 0 then None
  else Some (if neg then - v else v, 10 ^ Z.of_nat k).

(** The conversions on decimal notation, for a 32-bit [int] and a 64-bit
    [unsigned long]; floating-point values are the rounded quotient. *)
#[export] Instance decimal_conv : StdConv := {|
  stoi s :=
    match read_int s with
    | None => InvalidArgument
    | Some v =>
        if (- 2 ^ 31 <=? v) && (v <? 2 ^ 31) then Converted v else OutOfRange
    end;
  stoul s :=
    match read_int s with
    | None => InvalidArgument
    | Some v =>
        if Z.abs v <? 2 ^ 64 then Converted (v mod 2 ^ 64) else OutOfRange
    end;
  stof s :=
    match read_decimal s with
    | None => InvalidArgument
    | Some (n, d) => Converted (F32.div (F32.of_int n) (F32.of_int d))
    end;
  stod s :=
    match read_decimal s with
    | None => InvalidArgument
    | Some (n, d) => Converted (F64.div (F64.of_int n) (F64.of_int d))
    end
|}.

(** The XInput button masks; a datagram is its button mask in decimal. *)
#[export] Instance xinput_gamepad : GamepadLib := {|
  GamepadButton_Y := 32768;
  GamepadButton_DPadUp := 1;
  GamepadButton_DPadDown := 2;
  GamepadButton_DPadLeft := 4;
  GamepadButton_DPadRight := 8;
  parseGamepadData s :=
    {| leftThumbX := 0; leftThumbY := 0; rightThumbX := 0; rightThumbY := 0;
       buttons := default 0 (read_int s) |}
|}.

Definition sticks (lx rx ry : Z) : GamepadData :=
  {| leftThumbX := lx; leftThumbY := 0; rightThumbX := rx; rightThumbY := ry;
     buttons := 0 |}.

Definition axes (x y z : F32.t) : AxisData.t :=
  {| AxisData.x := x; AxisData.y := y; AxisData.z := z |}.

Definition still : AxisData.t := axes F32.zero F32.zero F32.zero.

(** The state right after a start with the default parameters. *)
Definition world0 : World := {|
  g_config := AppConfig_default;
  g_config_updated_flag := false;
  g_sync_config_data := ∅;
  config_ini := None;
  config_ini_writable := true;
  led_state_file := None;
  thruster := (thruster_init AppConfig_default statics_initial None).1.1;
  trace := []
|}.

(** The thruster state with all six smoothed values at 1500. *)
Definition at_1500 : statics :=
  (thruster world0){{ current_pwm_values := replicate 6 (F32.of_int 1500) }}.

(** The default parameters with a boost range of 100. *)
Definition boost_config : AppConfig := AppConfig_default{{ pwm_boost_max := 2000 }}.

(** The loop in normal operation: a peer is known, its last datagram
    came at second 100, and the sign recorded for accel.z is [sign]. *)
Definition connected (sign : F32.t) : Loop := {|
  net_ctx := {| client_addr_known := true;
                last_successful_recv_time := {| tv_sec := 100; tv_usec := 0 |} |};
  latest_gamepad_data := GamepadData_zero;
  current_gyro_data := still;
  loop_counter := 0;
  running := true;
  currently_in_failsafe := false;
  prev_accel_z_sign := sign
|}.

(** A tick at [sec] seconds and [usec] microseconds at which no datagram
    is pending and the accelerometer reads [accel_z]. *)
Definition silent_tick (sec usec : Z) (accel_z : F32.t) : TickEnv := {|
  current_time_tv := {| tv_sec := sec; tv_usec := usec |};
  recv_len := -1;
  recv_buffer := EmptyString;
  net_ctx_after_receive :=
    {| client_addr_known := true;
       last_successful_recv_time := {| tv_sec := 100; tv_usec := 0 |} |};
  gyro := still;
  accel := axes F32.zero F32.zero accel_z;
  sensor_buffer := None
|}.

Definition lines (l : list string) : string :=
  concat_strings (map (fun s => s +:+ Str.nl) l).


(** The state at program start, with a small config.ini. *)
Definition boot : World := {|
  g_config := AppConfig_default;
  g_config_updated_flag := false;
  g_sync_config_data := ∅;
  config_ini := Some (lines ["[pwm]"; "pwm_min = 1150"; "[network]";
                             "connection_timeout_seconds = 0.2"]);
  config_ini_writable := true;
  led_state_file := None;
  thruster := statics_initial;
  trace := []
|}.

(** A tick at second [sec] that receives the datagram [payload]. *)
Definition datagram_tick (sec : Z) (payload : string) : TickEnv := {|
  current_time_tv := {| tv_sec := sec; tv_usec := 0 |};
  recv_len := Z.of_nat (String.length payload);
  recv_buffer := payload;
  net_ctx_after_receive :=
    {| client_addr_known := true;
       last_successful_recv_time := {| tv_sec := sec; tv_usec := 0 |} |};
  gyro := still;
  accel := axes F32.zero F32.zero F32.one;
  sensor_buffer := None
|}.

(** The Y button is pressed in a first datagram at second 100, then the
    peer falls silent and the loop looks again at second 101. *)
Definition press_then_silence : list Step := [
  {| sync_payloads := []; tick_env := datagram_tick 100 "32768" |};
  {| sync_payloads := []; tick_env := silent_tick 101 0 F32.one |}
].

(** A config.ini whose third line has a value that is not a number. *)
Definition malformed_ini : string :=
  lines ["[pwm]"; "pwm_min = 1150"; "pwm_boost_max = high"; "[led]"; "channel = 9"].

Definition after_two_lines : parser :=
  {| current_section := "pwm";
     temp_config := AppConfig_default{{ pwm_min := 1150 }} |}.

(** The running system after the synchronisation task wrote
    [malformed_ini] and requested a reload. *)
Definition reload_requested : World := {|
  g_config := AppConfig_default;
  g_config_updated_flag := true;
  g_sync_config_data := ∅;
  config_ini := Some malformed_ini;
  config_ini_writable := true;
  led_state_file := None;
  thruster := (thruster_init AppConfig_default statics_initial None).1.1;
  trace := []
|}.

(** D-pad up pressed and released four times. *)
Definition four_presses : list (AppConfig * GamepadData * AxisData.t) :=
  let pressed := {| leftThumbX := 0; leftThumbY := 0; rightThumbX := 0;
                    rightThumbY := 0; buttons := 1 |} in
  let released := sticks 0 0 0 in
  [(AppConfig_default, pressed, still); (AppConfig_default, released, still);
   (AppConfig_default, pressed, still); (AppConfig_default, released, still);
   (AppConfig_default, pressed, still); (AppConfig_default, released, still);
   (AppConfig_default, pressed, still); (AppConfig_default, released, still)].

(** Two iterations without a datagram, an hour apart. *)
Definition silence : list Step := [
  {| sync_payloads := []; tick_env := silent_tick 100 0 F32.one |};
  {| sync_payloads := []; tick_env := silent_tick 3700 0 F32.one |}
].
End Examples.

(* ================================================================= *)
(** ** Notions used in the statements *)

(** A driver call that, when it programs a duty cycle, programs the duty
    cycle of a clamped pulse width. *)
Definition clamped_write (g : AppConfig) (ev : Event) : Prop :=
  match ev with
  | set_pwm_channel_duty_cycle _ d =>
      exists pulse, d = duty_cycle g (clamped_pwm g pulse)
  | _ => True
  end.

(** The channel the boost goes to, by the signs of the two axes. *)
Definition boosted_channel (data : GamepadData) : nat :=
  if (leftThumbX data <? 0) && (rightThumbX data <? 0) then 1
  else if (leftThumbX data <? 0) && (0 <? rightThumbX data) then 2
  else if (0 <? leftThumbX data) && (rightThumbX data <? 0) then 3
  else 0.

(** The claim C8 as the specification states it: within the deadzone, for
    any gyro sample, the four targets are [pwm_min]. *)
Definition deadzone_gives_pwm_min_for_any_gyro : Prop :=
  forall (g : AppConfig) (data : GamepadData) (gyro_data : AxisData.t),
    Z.abs (leftThumbX data) <= joystick_deadzone g ->
    Z.abs (rightThumbX data) <= joystick_deadzone g ->
    update_horizontal_thrusters g data gyro_data = replicate 4 (pwm_min g).

(** An accessory of [thruster_update]: its state variable, the static that
    remembers whether its button was pressed at the previous call, the
    button's mask and its transition function. *)
Record accessory := {
  led_state : statics -> LedState;
  previously_pressed : statics -> bool;
  button_mask : Z;
  next_state : LedState -> LedState
}.

Section Accessories.
Context `{GamepadLib}.

Definition accessories : list accessory := [
  {| led_state := current_led_state;
     previously_pressed := y_button_previously_pressed;
     button_mask := GamepadButton_Y; next_state := toggle_led |};
  {| led_state := current_led2_state;
     previously_pressed := dpad_up_button_previously_pressed;
     button_mask := GamepadButton_DPadUp; next_state := cycle_led |};
  {| led_state := current_led3_state;
     previously_pressed := dpad_down_button_previously_pressed;
     button_mask := GamepadButton_DPadDown; next_state := cycle_led |};
  {| led_state := current_led4_state;
     previously_pressed := dpad_left_button_previously_pressed;
     button_mask := GamepadButton_DPadLeft; next_state := cycle_led |};
  {| led_state := current_led5_state;
     previously_pressed := dpad_right_button_previously_pressed;
     button_mask := GamepadButton_DPadRight; next_state := cycle_led |}
].

(** The calls of [thruster_update] of successive ticks, each with the
    parameters, the gamepad sample and the gyro sample of its tick. *)
Definition thruster_updates (ticks : list (AppConfig * GamepadData * AxisData.t))
    (st : statics) : statics :=
  foldl (fun st '(g, data, gyro_data) => (thruster_update g st data gyro_data).1)
        st ticks.

(** Whether the button of mask [mask] is pressed at each tick. *)
Definition presses (mask : Z) (ticks : list (AppConfig * GamepadData * AxisData.t))
    : list bool :=
  map (fun t => button_pressed (buttons t.1.2) mask) ticks.
End Accessories.

(** The number of rising edges of a button over successive ticks, [prev]
    telling whether it was pressed before the first one. *)
Fixpoint rising_edges (prev : bool) (pressed : list bool) : nat :=
  match pressed with
  | [] => 0
  | b :: rest => ((if b && negb prev then 1 else 0) + rising_edges b rest)%nat
  end.

(** The value of a key of a section in the section map. *)
Definition lookup_key (m : gmap string (gmap string string)) (section key : string)
    : option string :=
  m !! section ≫= fun kvs => kvs !! key.

(** The claim C6 as the specification states it: after every payload the
    section map is persisted and the reload flag is raised. *)
Definition every_payload_is_persisted_and_flagged : Prop :=
  forall (data : string) (w : World),
    config_ini_writable w = true ->
    let w' := update_config_from_string data w in
    config_ini w' = Some (config_file_text (g_sync_config_data w'))
    /\ g_config_updated_flag w' = true.

(** The parts of the shared state that thruster calls and sends leave
    alone. *)
Definition same_settings (w w' : World) : Prop :=
  g_config w' = g_config w
  /\ g_config_updated_flag w' = g_config_updated_flag w
  /\ led_state_file w' = led_state_file w
  /\ config_ini w' = config_ini w.

(** The claim C2 as the specification states it: whenever the sign of
    accel.z read at a tick differs from the sign read at the preceding
    tick, [running] is false after the tick. The ticks considered are those
    that read the accelerometer (the loop is neither in failsafe nor
    stopping) after a sign has been recorded. *)
Definition every_sign_flip_terminates : Prop :=
  forall (C : StdConv) (G : GamepadLib) (e : TickEnv) (l : Loop) (w : World),
    currently_in_failsafe (receive_phase e l w).1 = false ->
    running (receive_phase e l w).1 = true ->
    F32.eqb (prev_accel_z_sign l) F32.zero = false ->
    F32.neb (F32.copysign_one (AxisData.z (accel e))) (prev_accel_z_sign l) = true ->
    running (tick e l w).1 = false.

(** A conversion that throws. *)
Definition is_exception {A : Type} (r : conv A) : Prop :=
  match r with
  | Converted _ => False
  | _ => True
  end.

(* ================================================================= *)
(** * Verification *)

(** ** The driver writes of thruster_control.cpp *)

Lemma clamped_pwm_bounds (g : AppConfig) (p : Z) :
  pwm_min g <= clamped_pwm g p <= Z.max (pwm_min g) (pwm_boost_max g).
Proof. unfold clamped_pwm. lia. Qed.

Lemma clamped_pwm_range (g : AppConfig) (p : Z) :
  pwm_min g <= pwm_boost_max g ->
  pwm_min g <= clamped_pwm g p <= pwm_boost_max g.
Proof. unfold clamped_pwm. lia. Qed.

Lemma clamped_pwm_of_pwm_min (g : AppConfig) :
  clamped_pwm g (pwm_min g) = pwm_min g.
Proof. unfold clamped_pwm. lia. Qed.

Lemma set_thruster_pwm_clamped (g : AppConfig) (ch p : Z) :
  Forall (clamped_write g) (set_thruster_pwm g ch p).
Proof.
  unfold set_thruster_pwm. constructor; [|constructor]. exists p. reflexivity.
Qed.

(** The writes of the loop over the six thruster channels. *)
Lemma set_all_events (g : AppConfig) (p : Z) (st : statics) :
  (set_all g p st).2 =
  flat_map (fun i => set_thruster_pwm g (Z.of_nat i) p) (seq 0 NUM_THRUSTERS).
Proof. reflexivity. Qed.

Lemma Forall_flat_map_events {A : Type} (P : Event -> Prop) (f : A -> list Event)
    (l : list A) :
  (forall a, Forall P (f a)) -> Forall P (flat_map f l).
Proof.
  intros Hf. induction l as [|a l IH]; simpl.
  - constructor.
  - apply Forall_app. split; [apply Hf | exact IH].
Qed.

Lemma set_all_clamped (g : AppConfig) (p : Z) (st : statics) :
  Forall (clamped_write g) (set_all g p st).2.
Proof.
  rewrite set_all_events. apply Forall_flat_map_events.
  intros i. apply set_thruster_pwm_clamped.
Qed.

Lemma apply_leds_clamped (g : AppConfig) (st : statics) :
  Forall (clamped_write g) (apply_leds g st).
Proof.
  unfold apply_leds.
  repeat (apply Forall_app; split); apply set_thruster_pwm_clamped.
Qed.

(** C3. Every pulse width written through the driver is first clamped and
    then converted: [set_thruster_pwm] programs the duty cycle
    [clamped / (1000000 / pwm_frequency)] of
    [clamped = max(pwm_min, min(pulse, pwm_boost_max))]; the clamped value
    is never below [pwm_min] and lies in [[pwm_min, pwm_boost_max]]
    whenever that interval is not empty (otherwise it is [pwm_min]); and
    every duty-cycle write of the four entry points of the module
    ([thruster_init], [thruster_disable], [thruster_update],
    [thruster_set_all_pwm]), thruster and LED channels alike, is the write
    of a clamped pulse width. *)
Theorem driver_writes_are_clamped `{GamepadLib} (g : AppConfig) (st : statics)
    (data : GamepadData) (gyro_data : AxisData.t) (file : option (list LedState))
    (channel pulse : Z) :
  set_thruster_pwm g channel pulse =
    [set_pwm_channel_duty_cycle channel
       (F32.div (F32.of_int (Z.max (pwm_min g) (Z.min pulse (pwm_boost_max g))))
                (F32.div (F32.of_int 1000000) (pwm_frequency g)))]
  /\ pwm_min g <= clamped_pwm g pulse <= Z.max (pwm_min g) (pwm_boost_max g)
  /\ (pwm_min g <= pwm_boost_max g ->
      pwm_min g <= clamped_pwm g pulse <= pwm_boost_max g)
  /\ Forall (clamped_write g) (thruster_init g st file).2
  /\ Forall (clamped_write g) (thruster_disable g st).2
  /\ Forall (clamped_write g) (thruster_update g st data gyro_data).2
  /\ Forall (clamped_write g) (thruster_set_all_pwm g pulse st).2.
Proof.
  split; [reflexivity|]. split; [apply clamped_pwm_bounds|].
  split; [apply clamped_pwm_range|].
  repeat split.
  - unfold thruster_init.
    destruct (set_all g (pwm_min g) st) as [st1 evs] eqn:E.
    pose proof (set_all_clamped g (pwm_min g) st) as Hevs.
    rewrite E in Hevs. cbn [snd] in *.
    apply Forall_app; split; [repeat constructor|].
    apply Forall_app; split; [exact Hevs | apply apply_leds_clamped].
  - unfold thruster_disable.
    destruct (set_all g (pwm_min g) st) as [st1 evs] eqn:E.
    pose proof (set_all_clamped g (pwm_min g) st) as Hevs.
    rewrite E in Hevs. cbn [snd] in *.
    repeat (apply Forall_app; split); try exact Hevs;
      try apply set_thruster_pwm_clamped.
    repeat constructor.
  - unfold thruster_update. cbn [snd].
    apply Forall_app; split.
    { apply Forall_flat_map_events. intros i. apply set_thruster_pwm_clamped. }
    apply Forall_app; split; [apply set_thruster_pwm_clamped|].
    apply Forall_app; split; [apply set_thruster_pwm_clamped|].
    apply apply_leds_clamped.
  - apply set_all_clamped.
Qed.

Lemma driver_writes_are_clamped_witness :
  1100 <= clamped_pwm AppConfig_default 2500 <= 1900
  /\ Forall (clamped_write AppConfig_default)
       (thruster_update (H := Examples.xinput_gamepad) AppConfig_default
          Examples.world0.(thruster) (Examples.sticks 20000 (-15000) 9000)
          Examples.still).2.
Proof.
  destruct (driver_writes_are_clamped (H := Examples.xinput_gamepad)
              AppConfig_default Examples.world0.(thruster)
              (Examples.sticks 20000 (-15000) 9000) Examples.still None 4 2500)
    as (_ & _ & Hrange & _ & _ & Hupdate & _).
  split; [|exact Hupdate].
  apply Hrange. vm_compute. discriminate.
Defined.

(** ** The horizontal mixer *)

Ltac case_ltb :=
  repeat match goal with
    | |- context [Z.ltb ?a ?b] => destruct (Z.ltb_spec a b)
    | |- context [Z.leb ?a ?b] => destruct (Z.leb_spec a b)
    end.

Lemma pwm_lx_idle (g : AppConfig) (data : GamepadData) :
  Z.abs (leftThumbX data) <= joystick_deadzone g ->
  pwm_lx g data = replicate 4 (pwm_min g).
Proof. intros Hd. unfold pwm_lx. case_ltb; try lia. reflexivity. Qed.

Lemma pwm_rx_idle (g : AppConfig) (data : GamepadData) :
  Z.abs (rightThumbX data) <= joystick_deadzone g ->
  pwm_rx g data = replicate 4 (pwm_min g).
Proof. intros Hd. unfold pwm_rx. case_ltb; try lia. reflexivity. Qed.

Lemma stick_targets_idle (g : AppConfig) (data : GamepadData) :
  Z.abs (leftThumbX data) <= joystick_deadzone g ->
  Z.abs (rightThumbX data) <= joystick_deadzone g ->
  stick_targets g data = replicate 4 (pwm_min g).
Proof.
  intros Hl Hr. unfold stick_targets.
  rewrite (pwm_lx_idle g data Hl), (pwm_rx_idle g data Hr).
  unfold lx_active, rx_active.
  destruct (Z.ltb_spec (joystick_deadzone g) (Z.abs (leftThumbX data))); [lia|].
  cbn. rewrite Z.max_id. reflexivity.
Qed.

Lemma yaw_pwm_bounds (g : AppConfig) (gyro_data : AxisData.t) :
  -400 <= yaw_pwm g gyro_data <= 400.
Proof. unfold yaw_pwm. cbv zeta. lia. Qed.


(** C8, counterexample. With the default parameters, centred sticks and a
    yaw rate of 10 (above [yaw_threshold_dps = 0.5]), the idle-yaw
    correction raises channels 1 and 2 to 1500 while [pwm_min] is 1100. *)
Lemma deadzone_targets_counterexample :
  update_horizontal_thrusters AppConfig_default (Examples.sticks 0 0 0)
    (Examples.axes F32.zero F32.zero (F32.of_int 10))
  = [1100; 1500; 1500; 1100]
  /\ pwm_min AppConfig_default = 1100
  /\ ~ deadzone_gives_pwm_min_for_any_gyro.
Proof.
  assert (Hrun : update_horizontal_thrusters AppConfig_default (Examples.sticks 0 0 0)
                   (Examples.axes F32.zero F32.zero (F32.of_int 10))
                 = [1100; 1500; 1500; 1100]) by (vm_compute; reflexivity).
  split; [exact Hrun|]. split; [reflexivity|].
  intros Hclaim.
  specialize (Hclaim AppConfig_default (Examples.sticks 0 0 0)
                (Examples.axes F32.zero F32.zero (F32.of_int 10))).
  rewrite Hrun in Hclaim.
  assert (H0 : Z.abs 0 <= 6500) by lia.
  specialize (Hclaim H0 H0). discriminate Hclaim.
Qed.

(** C8, amended. Within the deadzone on both horizontal axes the stick
    contribution to all four targets is [pwm_min]; the targets the mixer
    computes are [pwm_min] on all four channels when the yaw rate does not
    exceed [yaw_threshold_dps]; above the threshold the idle-yaw correction
    [c] (between -400 and 400) raises one diagonal pair to
    [min(pwm_boost_max, pwm_min + |c|)], channels 0 and 3 for [c < 0] and
    channels 1 and 2 otherwise, and leaves the other pair at [pwm_min]. *)
Theorem deadzone_targets (g : AppConfig) (data : GamepadData) (gyro_data : AxisData.t) :
  Z.abs (leftThumbX data) <= joystick_deadzone g ->
  Z.abs (rightThumbX data) <= joystick_deadzone g ->
  stick_targets g data = replicate 4 (pwm_min g)
  /\ (yaw_above_threshold g gyro_data = false ->
      update_horizontal_thrusters g data gyro_data = replicate 4 (pwm_min g))
  /\ (yaw_above_threshold g gyro_data = true ->
      let c := yaw_pwm g gyro_data in
      let raised := Z.min (pwm_boost_max g) (pwm_min g + Z.abs c) in
      -400 <= c <= 400
      /\ update_horizontal_thrusters g data gyro_data =
         if c <? 0 then [raised; pwm_min g; pwm_min g; raised]
         else [pwm_min g; raised; raised; pwm_min g]).
Proof.
  intros Hl Hr.
  pose proof (stick_targets_idle g data Hl Hr) as Hst.
  assert (Hlx : lx_active g data = false).
  { unfold lx_active. apply Z.ltb_ge. exact Hl. }
  assert (Hrx : rx_active g data = false).
  { unfold rx_active. apply Z.ltb_ge. exact Hr. }
  split; [exact Hst|].
  unfold update_horizontal_thrusters, stabilize, idle_yaw.
  rewrite Hst, Hlx, Hrx. cbn [negb].
  split; intros Hyaw; rewrite Hyaw.
  - reflexivity.
  - cbv zeta. split; [apply yaw_pwm_bounds|].
    pose proof (yaw_pwm_bounds g gyro_data) as Hb.
    destruct (Z.ltb_spec (yaw_pwm g gyro_data) 0) as [Hneg|Hpos].
    + reflexivity.
    + cbn. rewrite (Z.abs_eq (yaw_pwm g gyro_data)) by lia. reflexivity.
Qed.

Lemma deadzone_targets_witness :
  update_horizontal_thrusters AppConfig_default (Examples.sticks 6500 (-6500) 0)
    Examples.still = replicate 4 (pwm_min AppConfig_default).
Proof.
  assert (Hl : Z.abs 6500 <= 6500) by (vm_compute; discriminate).
  assert (Hr : Z.abs (-6500) <= 6500) by (vm_compute; discriminate).
  destruct (deadzone_targets AppConfig_default (Examples.sticks 6500 (-6500) 0)
              Examples.still Hl Hr) as (_ & Hquiet & _).
  apply Hquiet. vm_compute. reflexivity.
Defined.


(** C7. When the rotation axis and the strafe axis both exceed the
    deadzone, the target of every horizontal channel is the maximum of the
    rotation and the strafe contribution, and exactly one channel, the one
    [boosted_channel] selects, has the boost added, where the boost is
    [map_value] of the weaker magnitude from [[deadzone, 32768]] onto
    [[0, pwm_boost_max - pwm_normal_max]]. With a deadzone that is not
    negative the selection is by the four sign combinations: left/left
    channel 1, left/right channel 2, right/left channel 3, right/right
    channel 0. The gyro corrections that follow in the mixer are applied on
    top of these targets. *)
Theorem boost_on_exactly_one_channel (g : AppConfig) (data : GamepadData)
    (gyro_data : AxisData.t) :
  joystick_deadzone g < Z.abs (leftThumbX data) ->
  joystick_deadzone g < Z.abs (rightThumbX data) ->
  let boost :=
    F32.to_int
      (map_value (F32.of_int (Z.min (Z.abs (leftThumbX data)) (Z.abs (rightThumbX data))))
                 (F32.of_int (joystick_deadzone g)) (F32.of_int 32768)
                 (F32.of_int 0) (F32.of_int (pwm_boost_max g - pwm_normal_max g))) in
  let k := boosted_channel data in
  length (stick_targets g data) = 4%nat
  /\ (forall i : nat, (i < 4)%nat ->
        stick_targets g data !! i =
        Some (if decide (i = k)
              then Z.max (pwm_lx g data !!! i) (pwm_rx g data !!! i) + boost
              else Z.max (pwm_lx g data !!! i) (pwm_rx g data !!! i)))
  /\ (0 <= joystick_deadzone g ->
        (leftThumbX data < 0 /\ rightThumbX data < 0 /\ k = 1%nat)
        \/ (leftThumbX data < 0 /\ 0 < rightThumbX data /\ k = 2%nat)
        \/ (0 < leftThumbX data /\ rightThumbX data < 0 /\ k = 3%nat)
        \/ (0 < leftThumbX data /\ 0 < rightThumbX data /\ k = 0%nat))
  /\ update_horizontal_thrusters g data gyro_data =
       add_correction (correction_pwm_yaw g gyro_data)
         (add_correction (correction_pwm_roll g gyro_data) (stick_targets g data)).
Proof.
  intros Hl Hr boost k.
  assert (Hlx : lx_active g data = true) by (apply Z.ltb_lt; exact Hl).
  assert (Hrx : rx_active g data = true) by (apply Z.ltb_lt; exact Hr).
  assert (Hboost : boost_add g data = boost) by reflexivity.
  repeat split.
  - unfold stick_targets. rewrite Hlx, Hrx. cbn [andb].
    destruct ((leftThumbX data <? 0) && (rightThumbX data <? 0));
      [reflexivity|].
    destruct ((leftThumbX data <? 0) && (0 <? rightThumbX data));
      [reflexivity|].
    destruct ((0 <? leftThumbX data) && (rightThumbX data <? 0)); reflexivity.
  - intros i Hi. subst k. unfold stick_targets, boosted_channel.
    rewrite Hlx, Hrx, Hboost. cbn [andb].
    destruct ((leftThumbX data <? 0) && (rightThumbX data <? 0)).
    { destruct i as [|[|[|[|i]]]]; try lia; reflexivity. }
    destruct ((leftThumbX data <? 0) && (0 <? rightThumbX data)).
    { destruct i as [|[|[|[|i]]]]; try lia; reflexivity. }
    destruct ((0 <? leftThumbX data) && (rightThumbX data <? 0)).
    { destruct i as [|[|[|[|i]]]]; try lia; reflexivity. }
    destruct i as [|[|[|[|i]]]]; try lia; reflexivity.
  - intros Hdz. subst k. unfold boosted_channel.
    destruct (Z.ltb_spec (leftThumbX data) 0), (Z.ltb_spec (rightThumbX data) 0),
      (Z.ltb_spec 0 (leftThumbX data)), (Z.ltb_spec 0 (rightThumbX data));
      cbn [andb]; lia.
  - unfold update_horizontal_thrusters, idle_yaw, stabilize.
    rewrite Hlx, Hrx. reflexivity.
Qed.

Lemma boost_on_exactly_one_channel_witness :
  stick_targets Examples.boost_config
    (Examples.sticks 20000 (-15000) 0) !! 3%nat = Some (1511 + 32).
Proof.
  assert (Hl : 6500 < Z.abs 20000) by (vm_compute; reflexivity).
  assert (Hr : 6500 < Z.abs (-15000)) by (vm_compute; reflexivity).
  destruct (boost_on_exactly_one_channel Examples.boost_config
              (Examples.sticks 20000 (-15000) 0) Examples.still Hl Hr)
    as (_ & Htargets & _).
  assert (H3 : (3 < 4)%nat) by (vm_compute; constructor).
  rewrite (Htargets 3%nat H3). vm_compute. reflexivity.
Defined.

(** ** Smoothing of the forward/back channels *)

(** The smoothing array keeps its six entries. *)
Lemma set_all_length (g : AppConfig) (p : Z) (st : statics) :
  length (current_pwm_values (set_all g p st).1) = length (current_pwm_values st).
Proof.
  unfold set_all. cbn [foldl seq NUM_THRUSTERS fst apply_update current_pwm_values].
  rewrite !length_insert. reflexivity.
Qed.

Lemma thruster_update_length `{GamepadLib} (g : AppConfig) (st : statics)
    (data : GamepadData) (gyro_data : AxisData.t) :
  length (current_pwm_values (thruster_update g st data gyro_data).1)
  = length (current_pwm_values st).
Proof.
  unfold thruster_update, smooth_horizontal.
  cbn [fst current_pwm_values foldl seq]. rewrite !length_insert. reflexivity.
Qed.

(** C9. For channels 4 and 5, one call of [thruster_update] interpolates
    the smoothed value toward the target with [smoothing_factor_vertical]
    only when the target is strictly greater than the current value: the
    new value is then [current + (target - current) * smoothing_factor_vertical]
    in [float] arithmetic; otherwise the value becomes the target at once: a
    target that is lower or equal is reached within the tick, and a value
    that differs from the target after the tick was ramping up. The
    hypothesis on the length is the size of the array
    [current_pwm_values[NUM_THRUSTERS]]. *)
Theorem forward_channels_ramp_up_snap_down `{GamepadLib} (g : AppConfig) (st : statics)
    (data : GamepadData) (gyro_data : AxisData.t) (ch : nat) :
  length (current_pwm_values st) = NUM_THRUSTERS ->
  ch = 4%nat \/ ch = 5%nat ->
  let target := F32.of_int (calculate_forward_reverse_pwm g (rightThumbY data)) in
  let current := current_pwm_values st !!! ch in
  let current' := current_pwm_values (thruster_update g st data gyro_data).1 !!! ch in
  current' = (if F32.gtb target current
              then F32.add current
                     (F32.mul (F32.sub target current) (smoothing_factor_vertical g))
              else target)
  /\ (F32.gtb target current = true ->
      current' = F32.add current
                   (F32.mul (F32.sub target current) (smoothing_factor_vertical g)))
  /\ (F32.gtb target current = false -> current' = target)
  /\ (current' <> target -> F32.gtb target current = true).
Proof.
  intros Hlen Hch target current current'.
  assert (Heq : current' = (if F32.gtb target current
                            then F32.add current
                                   (F32.mul (F32.sub target current)
                                            (smoothing_factor_vertical g))
                            else target)).
  { subst current' current target. unfold thruster_update. cbn [fst current_pwm_values].
    destruct (current_pwm_values st) as [|c0 [|c1 [|c2 [|c3 [|c4 [|c5 [|c6 rest]]]]]]];
      try discriminate Hlen.
    destruct Hch as [-> | ->]; reflexivity. }
  clearbody current' current target.
  split; [exact Heq|]. split; [|split].
  - intros Hgt. rewrite Heq, Hgt. reflexivity.
  - intros Hle. rewrite Heq, Hle. reflexivity.
  - intros Hne. destruct (F32.gtb target current) eqn:E; [reflexivity|].
    exfalso. apply Hne. exact Heq.
Qed.

(** C9 at concrete inputs, with the default parameters (factor 0.04).
    Ramp-up: from 1100 with the stick fully forward (target 1900) the value
    becomes 1100 + 800 * 0.04 = 1132, strictly between the old value and
    the target. Snap-down: from 1500 with the stick at 9000 (target 1176)
    the value is 1176 at once. *)
Lemma forward_channels_ramp_up_snap_down_witness :
  (calculate_forward_reverse_pwm AppConfig_default 32767 = 1900
   /\ current_pwm_values Examples.world0.(thruster) !!! 4%nat = F32.of_int 1100
   /\ current_pwm_values
        (thruster_update (H := Examples.xinput_gamepad) AppConfig_default
           Examples.world0.(thruster)
           (Examples.sticks 0 0 32767) Examples.still).1 !!! 4%nat
      = F32.of_int 1132)
  /\ current_pwm_values
       (thruster_update (H := Examples.xinput_gamepad) AppConfig_default
          Examples.at_1500
          (Examples.sticks 0 0 9000) Examples.still).1 !!! 4%nat
     = F32.of_int 1176.
Proof.
  split; [split; [|split]|].
  - vm_compute; reflexivity.
  - vm_compute; reflexivity.
  - destruct (forward_channels_ramp_up_snap_down (H := Examples.xinput_gamepad)
                AppConfig_default Examples.world0.(thruster)
                (Examples.sticks 0 0 32767) Examples.still 4%nat
                ltac:(vm_compute; reflexivity) ltac:(left; reflexivity))
      as (_ & Hramp & _).
    rewrite Hramp; vm_compute; reflexivity.
  - destruct (forward_channels_ramp_up_snap_down (H := Examples.xinput_gamepad)
                AppConfig_default Examples.at_1500
                (Examples.sticks 0 0 9000) Examples.still 4%nat
                ltac:(vm_compute; reflexivity) ltac:(left; reflexivity))
      as (_ & _ & Hsnap & _).
    rewrite Hsnap; vm_compute; reflexivity.
Defined.

(** ** The accessory (LED) state machines *)


Lemma iter_shift {A : Type} (f : A -> A) (n : nat) (x : A) :
  Nat.iter n f (f x) = f (Nat.iter n f x).
Proof. induction n as [|n IH]; simpl; [reflexivity | rewrite IH; reflexivity]. Qed.

Lemma accessory_step `{GamepadLib} (a : accessory) (g : AppConfig) (st : statics)
    (data : GamepadData) (gyro_data : AxisData.t) :
  a ∈ accessories ->
  let st' := (thruster_update g st data gyro_data).1 in
  led_state a st' =
    on_rising_edge (button_pressed (buttons data) (button_mask a))
                   (previously_pressed a st) (next_state a) (led_state a st)
  /\ previously_pressed a st' = button_pressed (buttons data) (button_mask a).
Proof.
  intros Ha. unfold accessories in Ha.
  repeat (apply elem_of_cons in Ha; destruct Ha as [-> | Ha]);
    [split; reflexivity ..|].
  apply elem_of_nil in Ha. destruct Ha.
Qed.

Lemma accessory_run `{GamepadLib} (a : accessory)
    (ticks : list (AppConfig * GamepadData * AxisData.t)) (st : statics) :
  a ∈ accessories ->
  led_state a (thruster_updates ticks st) =
  Nat.iter (rising_edges (previously_pressed a st) (presses (button_mask a) ticks))
           (next_state a) (led_state a st).
Proof.
  intros Ha. revert st. induction ticks as [|[[g data] gyro_data] ticks IH]; intros st.
  - reflexivity.
  - cbn [thruster_updates foldl presses map rising_edges fst snd].
    fold (thruster_updates ticks (thruster_update g st data gyro_data).1).
    rewrite IH. fold (presses (button_mask a) ticks).
    destruct (accessory_step a g st data gyro_data Ha) as [Hled Hprev].
    rewrite Hled, Hprev. unfold on_rising_edge.
    destruct (button_pressed (buttons data) (button_mask a)
              && negb (previously_pressed a st)).
    + rewrite Nat.add_1_l. cbn [Nat.iter nat_rect]. apply iter_shift.
    + reflexivity.
Qed.

(** C10. For every accessory: a call of [thruster_update] changes the
    state only on a rising edge of the accessory's button (pressed at this
    call and not at the previous one) and then applies the accessory's
    transition, and leaves it unchanged otherwise; over any sequence of
    ticks the state is the initial state advanced once per rising edge.
    Accessory 1 toggles OFF <-> ON and is back after 2 edges; accessories
    2 to 5 advance OFF -> ON1 -> ON2 -> MAX -> OFF and are back after 4
    edges. *)
Theorem accessories_change_on_rising_edges `{GamepadLib} :
  (forall a, a ∈ accessories ->
     (forall g st data gyro_data,
        let pressed := button_pressed (buttons data) (button_mask a) in
        let st' := (thruster_update g st data gyro_data).1 in
        led_state a st' =
          (if pressed && negb (previously_pressed a st)
           then next_state a (led_state a st) else led_state a st)
        /\ previously_pressed a st' = pressed)
     /\ (forall ticks st,
           led_state a (thruster_updates ticks st) =
           Nat.iter (rising_edges (previously_pressed a st)
                                  (presses (button_mask a) ticks))
                    (next_state a) (led_state a st)))
  /\ map next_state accessories = [toggle_led; cycle_led; cycle_led; cycle_led; cycle_led]
  /\ map toggle_led [OFF; ON] = [ON; OFF]
  /\ map cycle_led [OFF; ON1; ON2; MAX] = [ON1; ON2; MAX; OFF]
  /\ (forall s, s ∈ [OFF; ON] -> Nat.iter 2 toggle_led s = s)
  /\ (forall s, s ∈ [OFF; ON1; ON2; MAX] -> Nat.iter 4 cycle_led s = s).
Proof.
  split; [|repeat split].
  - intros a Ha. split.
    + intros g st data gyro_data. apply (accessory_step a g st data gyro_data Ha).
    + intros ticks st. apply accessory_run, Ha.
  - intros s Hs.
    repeat (apply elem_of_cons in Hs; destruct Hs as [-> | Hs]); try reflexivity.
    apply elem_of_nil in Hs. destruct Hs.
  - intros s Hs.
    repeat (apply elem_of_cons in Hs; destruct Hs as [-> | Hs]); try reflexivity.
    apply elem_of_nil in Hs. destruct Hs.
Qed.

(** ** Payloads of the synchronisation task *)

Lemma append_cons (a : ascii) (s t : string) : String a s +:+ t = String a (s +:+ t).
Proof. reflexivity. Qed.

Lemma append_nil (t : string) : EmptyString +:+ t = t.
Proof. reflexivity. Qed.

Lemma find_append_skip (c : ascii) (s t : string) :
  Str.find c s = None ->
  Str.find c (s +:+ t) = option_map (fun i => (String.length s + i)%nat) (Str.find c t).
Proof.
  induction s as [|a s IH]; intros Hs.
  - rewrite append_nil. destruct (Str.find c t); reflexivity.
  - rewrite append_cons. simpl in *.
    destruct (Ascii.eqb a c); [discriminate|].
    destruct (Str.find c s); [discriminate|].
    rewrite (IH eq_refl). destruct (Str.find c t); reflexivity.
Qed.

Lemma find_none_substr_from (c : ascii) (s : string) (p : nat) :
  Str.find c s = None -> Str.find c (Str.substr_from p s) = None.
Proof.
  revert s. induction p as [|p IH]; intros s Hs; [destruct s; exact Hs|].
  destruct s as [|a s]; [reflexivity|]. simpl in *. apply IH.
  destruct (Ascii.eqb a c); [discriminate|].
  destruct (Str.find c s); [discriminate | reflexivity].
Qed.

Lemma substr_from_append (s t : string) :
  Str.substr_from (String.length s) (s +:+ t) = t.
Proof.
  induction s as [|a s IH]; [rewrite append_nil; destruct t; reflexivity|].
  rewrite append_cons. exact IH.
Qed.

Lemma substr_from_append_skip (s t : string) (n : nat) :
  Str.substr_from (String.length s + n) (s +:+ t) = Str.substr_from n t.
Proof.
  induction s as [|a s IH]; [reflexivity|]. rewrite append_cons. exact IH.
Qed.

Lemma substring_append_skip (s t : string) (n : nat) :
  substring (String.length s) n (s +:+ t) = substring 0 n t.
Proof.
  induction s as [|a s IH]; [reflexivity|]. rewrite append_cons. exact IH.
Qed.

Lemma substring_append_skip_S (s t : string) (c : ascii) (n : nat) :
  substring (S (String.length s)) n (s +:+ String c t) = substring 0 n t.
Proof.
  induction s as [|a s IH]; [destruct t; reflexivity|]. rewrite append_cons. exact IH.
Qed.

Lemma substring_prefix (s t : string) :
  substring 0 (String.length s) (s +:+ t) = s.
Proof.
  induction s as [|a s IH].
  - rewrite append_nil. destruct t; reflexivity.
  - rewrite append_cons. simpl. rewrite IH. reflexivity.
Qed.

(** What [parse_update_line] returns once the positions are known. *)
Lemma parse_update_line_found (line : string) (section_end k : nat) :
  is_char "[" (Str.head line) = true ->
  Str.find "]" line = Some section_end ->
  Str.find "=" (Str.substr_from section_end line) = Some k ->
  parse_update_line line =
  Some (Str.substr line 1 (section_end - 1),
        Str.substr line (section_end + 1) (section_end + k - (section_end + 1)),
        Str.substr_from (section_end + k + 1) line).
Proof.
  intros Hhead Hend Heq. unfold parse_update_line, Str.find_from.
  rewrite Hhead. cbn [negb].
  assert (Hlen : (String.length line =? 0)%nat = false).
  { destruct line; [discriminate Hhead | reflexivity]. }
  rewrite Hlen. cbn [orb Str.substr_from]. rewrite Hend. cbn [option_map Nat.add].
  rewrite Heq. reflexivity.
Qed.

(** A line [[section]key=value] is read back as its three parts. *)
Lemma parse_update_line_well_formed (section key value : string) :
  Str.find "]" section = None ->
  Str.find "=" key = None ->
  parse_update_line ("[" +:+ section +:+ "]" +:+ key +:+ "=" +:+ value)
  = Some (section, key, value).
Proof.
  intros Hsec Hkey.
  change ("[" +:+ section +:+ "]" +:+ key +:+ "=" +:+ value)
    with (String "[" (section +:+ String "]" (key +:+ String "=" value))).
  set (rest := section +:+ String "]" (key +:+ String "=" value)).
  assert (Hend : Str.find "]" (String "[" rest) = Some (S (String.length section))).
  { subst rest. simpl. rewrite (find_append_skip "]" section _ Hsec). simpl.
    rewrite Nat.add_0_r. reflexivity. }
  assert (Heq : Str.find "=" (Str.substr_from (S (String.length section)) (String "[" rest))
                = Some (S (String.length key))).
  { subst rest. simpl. rewrite substr_from_append. simpl.
    rewrite (find_append_skip "=" key _ Hkey). simpl.
    rewrite Nat.add_0_r. reflexivity. }
  assert (Hhead : is_char "[" (Str.head (String "[" rest)) = true) by reflexivity.
  rewrite (parse_update_line_found _ _ _ Hhead Hend Heq). unfold Str.substr.
  f_equal. f_equal; [f_equal|].
  - replace (S (String.length section) - 1)%nat with (String.length section) by lia.
    subst rest. cbn [substring]. apply substring_prefix.
  - replace (S (String.length section) + S (String.length key)
             - (S (String.length section) + 1))%nat with (String.length key) by lia.
    replace (S (String.length section) + 1)%nat
      with (S (S (String.length section))) by lia.
    subst rest. cbn [substring]. rewrite substring_append_skip_S.
    apply substring_prefix.
  - replace (S (String.length section) + S (String.length key) + 1)%nat
      with (S (String.length section + S (S (String.length key)))) by lia.
    subst rest. cbn [Str.substr_from]. rewrite substr_from_append_skip.
    change (Str.substr_from (S (String.length key)) (key +:+ String "=" value) = value).
    replace (S (String.length key)) with (String.length key + 1)%nat by lia.
    rewrite substr_from_append_skip. reflexivity.
Qed.

(** A line without the leading bracket, without a closing bracket or
    without an equals sign is skipped. *)
Lemma parse_update_line_malformed (line : string) :
  is_char "[" (Str.head line) = false \/ Str.find "]" line = None
  \/ Str.find "=" line = None ->
  parse_update_line line = None.
Proof.
  intros Hbad. unfold parse_update_line, Str.find_from.
  destruct ((String.length line =? 0)%nat || negb (is_char "[" (Str.head line))) eqn:E;
    [reflexivity|].
  apply orb_false_elim in E. destruct E as [_ Ehead]. apply negb_false_iff in Ehead.
  destruct Hbad as [Hbad | [Hbad | Hbad]].
  - congruence.
  - cbn [Str.substr_from]. rewrite Hbad. reflexivity.
  - destruct (Str.find "]" (Str.substr_from 0 line)) as [p|]; [|reflexivity].
    cbn [option_map]. rewrite (find_none_substr_from "=" line _ Hbad). reflexivity.
Qed.

(** The loop of [update_config_from_string] applies the lines that
    [parse_update_line] accepts, in order, and counts them. *)
Lemma update_lines_foldl (lines : list string) (m : gmap string (gmap string string))
    (n : Z) :
  foldl update_line (m, n) lines =
  (foldl (fun m '(section, key, value) => upsert section key value m) m
         (omap parse_update_line lines),
   n + Z.of_nat (length (omap parse_update_line lines))).
Proof.
  revert m n. induction lines as [|line lines IH]; intros m n.
  - cbn. f_equal. lia.
  - change (omap parse_update_line (line :: lines))
      with (match parse_update_line line with
            | Some y => y :: omap parse_update_line lines
            | None => omap parse_update_line lines
            end).
    cbn [foldl]. unfold update_line at 2.
    destruct (parse_update_line line) as [[[section key] value]|].
    + cbn [fst snd]. rewrite IH. cbn [foldl length]. f_equal. lia.
    + apply IH.
Qed.


Lemma lookup_key_upsert (m : gmap string (gmap string string))
    (section key value section' key' : string) :
  lookup_key (upsert section key value m) section' key' =
  if decide (section = section' /\ key = key') then Some value
  else lookup_key m section' key'.
Proof.
  unfold lookup_key, upsert.
  destruct (decide (section = section')) as [<-|Hs].
  - rewrite lookup_insert_eq. cbn.
    destruct (decide (key = key')) as [<-|Hk].
    + rewrite lookup_insert_eq. rewrite decide_True by auto. reflexivity.
    + rewrite lookup_insert_ne by exact Hk.
      rewrite decide_False by (intros [_ ?]; contradiction).
      destruct (m !! section); reflexivity.
  - rewrite lookup_insert_ne by exact Hs.
    rewrite decide_False by (intros [? _]; contradiction). reflexivity.
Qed.


(** C6, counterexample. A payload whose only line lacks the leading
    bracket updates nothing: [updates_count] stays 0, the (writable) file
    is not written and the flag is not raised. *)
Lemma payload_persisted_counterexample :
  config_ini_writable Examples.world0 = true
  /\ g_config_updated_flag
       (update_config_from_string "pwm]pwm_min=1150" Examples.world0) = false
  /\ config_ini (update_config_from_string "pwm]pwm_min=1150" Examples.world0) = None
  /\ ~ every_payload_is_persisted_and_flagged.
Proof.
  split; [reflexivity|]. split; [vm_compute; reflexivity|].
  split; [vm_compute; reflexivity|].
  intros Hclaim.
  destruct (Hclaim "pwm]pwm_min=1150" Examples.world0 eq_refl) as [_ Hflag].
  vm_compute in Hflag. discriminate Hflag.
Qed.

(** C6, amended. [update_config_from_string] upserts every line of the
    payload that has the form [[section]key=value] (leading bracket, a
    closing bracket, an equals sign after it), in order; every other line
    is skipped and changes nothing, whatever the other lines are. When at
    least one line was applied, the section map is then written to the
    config file (when it can be opened for writing) and the reload flag is
    raised; when none was, the state is left as it was, file and flag
    included. *)
Theorem payload_lines_applied_individually (data : string) (w : World) :
  let applied := omap parse_update_line (Str.getlines data) in
  let w' := update_config_from_string data w in
  g_sync_config_data w' =
    foldl (fun m '(section, key, value) => upsert section key value m)
          (g_sync_config_data w) applied
  /\ (applied <> [] ->
      g_config_updated_flag w' = true
      /\ (config_ini_writable w = true ->
          config_ini w' = Some (config_file_text (g_sync_config_data w'))))
  /\ (applied = [] -> w' = w)
  /\ (forall section key value,
        Str.find "]" section = None -> Str.find "=" key = None ->
        parse_update_line ("[" +:+ section +:+ "]" +:+ key +:+ "=" +:+ value)
        = Some (section, key, value))
  /\ (forall line,
        is_char "[" (Str.head line) = false \/ Str.find "]" line = None
        \/ Str.find "=" line = None ->
        parse_update_line line = None)
  /\ (forall m section key value section' key',
        lookup_key (upsert section key value m) section' key' =
        if decide (section = section' /\ key = key') then Some value
        else lookup_key m section' key').
Proof.
  intros applied w'.
  assert (Hrun : foldl update_line (g_sync_config_data w, 0) (Str.getlines data)
                 = (foldl (fun m '(section, key, value) => upsert section key value m)
                          (g_sync_config_data w) applied,
                    0 + Z.of_nat (length applied))) by apply update_lines_foldl.
  subst w'. unfold update_config_from_string, save_config. rewrite Hrun. clear Hrun.
  clearbody applied. destruct w as [g flag m file writable leds thr tr].
  cbn -[config_file_text upsert foldl Z.ltb Z.add].
  split; [|split; [|split; [|split; [|split]]]].
  - destruct (0 <? 0 + Z.of_nat (length applied)); [|reflexivity].
    destruct writable; reflexivity.
  - intros Hne.
    destruct (Z.ltb_spec 0 (0 + Z.of_nat (length applied))) as [_|Hle].
    + split; [destruct writable; reflexivity|]. intros ->. reflexivity.
    + destruct applied; [contradiction | cbn [length] in Hle; lia].
  - intros ->. reflexivity.
  - apply parse_update_line_well_formed.
  - apply parse_update_line_malformed.
  - apply lookup_key_upsert.
Qed.

Lemma payload_lines_applied_individually_witness :
  lookup_key
    (g_sync_config_data
       (update_config_from_string
          (Examples.lines ["[pwm]pwm_min=1150"; "[pwm]pwm_boost_max"; "[led]channel=9"])
          Examples.world0))
    "pwm" "pwm_min" = Some "1150"
  /\ g_config_updated_flag
       (update_config_from_string
          (Examples.lines ["[pwm]pwm_min=1150"; "[pwm]pwm_boost_max"; "[led]channel=9"])
          Examples.world0) = true.
Proof.
  destruct (payload_lines_applied_individually
              (Examples.lines ["[pwm]pwm_min=1150"; "[pwm]pwm_boost_max"; "[led]channel=9"])
              Examples.world0) as (Hmap & Hsaved & _).
  split.
  - rewrite Hmap. vm_compute. reflexivity.
  - apply Hsaved. vm_compute. discriminate.
Defined.

(** ** Frame properties of the operations on the shared state *)

Lemma emit_spec (evs : list Event) (w : World) :
  emit evs w =
  {| g_config := g_config w; g_config_updated_flag := g_config_updated_flag w;
     g_sync_config_data := g_sync_config_data w; config_ini := config_ini w;
     config_ini_writable := config_ini_writable w;
     led_state_file := led_state_file w; thruster := thruster w;
     trace := trace w ++ evs |}.
Proof. destruct w; reflexivity. Qed.

Lemma call_thruster_spec (f : AppConfig -> statics -> statics * list Event) (w : World) :
  call_thruster f w =
  {| g_config := g_config w; g_config_updated_flag := g_config_updated_flag w;
     g_sync_config_data := g_sync_config_data w; config_ini := config_ini w;
     config_ini_writable := config_ini_writable w;
     led_state_file := led_state_file w;
     thruster := (f (g_config w) (thruster w)).1;
     trace := trace w ++ (f (g_config w) (thruster w)).2 |}.
Proof.
  unfold call_thruster. destruct (f (g_config w) (thruster w)) as [st evs].
  destruct w; reflexivity.
Qed.


Lemma same_settings_refl (w : World) : same_settings w w.
Proof. repeat split. Qed.

Lemma same_settings_trans (w1 w2 w3 : World) :
  same_settings w1 w2 -> same_settings w2 w3 -> same_settings w1 w3.
Proof.
  unfold same_settings. intros (A1 & A2 & A3 & A4) (B1 & B2 & B3 & B4).
  repeat split; congruence.
Qed.

Lemma emit_same_settings (evs : list Event) (w : World) : same_settings w (emit evs w).
Proof. rewrite emit_spec. repeat split. Qed.

Lemma call_thruster_same_settings (f : AppConfig -> statics -> statics * list Event)
    (w : World) :
  same_settings w (call_thruster f w).
Proof. rewrite call_thruster_spec. repeat split. Qed.

Create HintDb settings.
#[local] Hint Resolve same_settings_refl emit_same_settings
  call_thruster_same_settings : settings.

Section LoopFacts.
Context `{StdConv} `{GamepadLib}.

Lemma reload_spec (w : World) :
  reload w =
  {| g_config := if g_config_updated_flag w
                 then (loadConfig (config_ini w) (g_config w)).2 else g_config w;
     g_config_updated_flag := false;
     g_sync_config_data := g_sync_config_data w; config_ini := config_ini w;
     config_ini_writable := config_ini_writable w;
     led_state_file := led_state_file w; thruster := thruster w;
     trace := trace w |}.
Proof. unfold reload. destruct w as [g [] m file wr leds thr tr]; reflexivity. Qed.

(** An iteration without a datagram while the loop is in failsafe (in
    particular before the first contact) only polls the network. *)
Lemma tick_in_failsafe (e : TickEnv) (l : Loop) (w : World) :
  recv_len e <= 0 ->
  currently_in_failsafe l = true ->
  tick e l w = (l{{ net_ctx := net_ctx_after_receive e; loop_counter := 0 }}, reload w).
Proof.
  intros Hrecv Hfs. unfold tick, receive_phase, on_silence.
  destruct (Z.ltb_spec 0 (recv_len e)) as [Hpos|_]; [lia|].
  destruct l as [ctx gp gy n run fs prev]. cbn in Hfs. subst fs.
  cbn [currently_in_failsafe net_ctx apply_update negb]. unfold constant.
  destruct (client_addr_known (net_ctx_after_receive e)
            && F64.gtb (time_since_last_packet ctx (current_time_tv e))
                       (connection_timeout_seconds (g_config w)));
    reflexivity.
Qed.

Lemma update_config_from_string_frame (data : string) (w : World) :
  trace (update_config_from_string data w) = trace w
  /\ thruster (update_config_from_string data w) = thruster w
  /\ led_state_file (update_config_from_string data w) = led_state_file w
  /\ g_config (update_config_from_string data w) = g_config w.
Proof.
  unfold update_config_from_string, save_config.
  destruct (foldl update_line (g_sync_config_data w, 0) (Str.getlines data)) as [m n].
  destruct w as [g flag m0 file wr leds thr tr].
  cbn -[config_file_text Z.ltb].
  destruct (0 <? n), wr; cbn; auto.
Qed.

Lemma sync_payloads_frame (payloads : list string) (w : World) :
  let w' := foldl (fun w data => update_config_from_string data w) w payloads in
  trace w' = trace w /\ thruster w' = thruster w
  /\ led_state_file w' = led_state_file w /\ g_config w' = g_config w.
Proof.
  revert w. induction payloads as [|data payloads IH]; intros w; cbn [foldl].
  - auto.
  - destruct (IH (update_config_from_string data w)) as (Ht & Hs & Hl & Hg).
    destruct (update_config_from_string_frame data w) as (Ht' & Hs' & Hl' & Hg').
    cbv zeta. rewrite Ht, Hs, Hl, Hg. auto.
Qed.

Lemma on_packet_same_settings (e : TickEnv) (l : Loop) (w : World) :
  same_settings w (on_packet e l w).2.
Proof.
  unfold on_packet. destruct (currently_in_failsafe l); cbn [snd]; auto with settings.
Qed.

Lemma on_silence_same_settings (elapsed timeout : F64.t) (pwm : Z) (l : Loop)
    (w : World) :
  same_settings w (on_silence elapsed timeout pwm l w).2.
Proof.
  unfold on_silence.
  destruct (client_addr_known (net_ctx l) && F64.gtb elapsed timeout),
    (negb (currently_in_failsafe l)); cbn [snd]; auto with settings.
Qed.

Lemma normal_operation_same_settings (e : TickEnv) (interval : Z) (l : Loop)
    (w : World) :
  same_settings w (normal_operation e interval l w).2.
Proof.
  unfold normal_operation.
  destruct (negb (currently_in_failsafe l) && running l); [|auto with settings].
  match goal with |- context [if ?c then _ else _] => destruct c end;
    cbn [snd]; [destruct (sensor_buffer e)|]; auto with settings.
  eapply same_settings_trans; auto with settings.
Qed.

(** An iteration changes the parameters and the flag through the hot
    reload only, and never touches the files. *)
Lemma tick_same_settings (e : TickEnv) (l : Loop) (w : World) :
  same_settings (reload w) (tick e l w).2.
Proof.
  unfold tick, receive_phase.
  destruct (0 <? recv_len e).
  - destruct (on_packet _ _ _) as [l1 w1] eqn:E.
    eapply same_settings_trans; [|apply normal_operation_same_settings].
    pose proof (on_packet_same_settings e
                  (l{{ net_ctx := net_ctx_after_receive e }}) (reload w)) as Hp.
    rewrite E in Hp. exact Hp.
  - destruct (on_silence _ _ _ _ _) as [l1 w1] eqn:E.
    eapply same_settings_trans; [|apply normal_operation_same_settings].
    pose proof (on_silence_same_settings
                  (time_since_last_packet (net_ctx l) (current_time_tv e))
                  (connection_timeout_seconds (g_config w)) (pwm_min (g_config w))
                  (l{{ net_ctx := net_ctx_after_receive e }}) (reload w)) as Hp.
    rewrite E in Hp. exact Hp.
Qed.
End LoopFacts.

(** ** The connection timeout *)

Section Timeout.
Context `{StdConv} `{GamepadLib}.

(** The iteration at which the timeout fires. *)
Lemma tick_timeout (e : TickEnv) (l : Loop) (w : World) :
  recv_len e <= 0 ->
  client_addr_known (net_ctx_after_receive e) = true ->
  F64.gtb (time_since_last_packet (net_ctx l) (current_time_tv e))
          (connection_timeout_seconds (g_config w)) = true ->
  currently_in_failsafe l = false ->
  tick e l w =
  (l{{ net_ctx := net_ctx_after_receive e;
       latest_gamepad_data := GamepadData_zero;
       currently_in_failsafe := true;
       running := false;
       loop_counter := 0 }},
   call_thruster (fun g => thruster_set_all_pwm g (pwm_min (g_config w))) (reload w)).
Proof.
  intros Hrecv Hknown Hlate Hfs. unfold tick, receive_phase, on_silence.
  destruct (Z.ltb_spec 0 (recv_len e)) as [Hpos|_]; [lia|].
  destruct l as [ctx gp gy n run fs prev]. cbn in Hfs, Hlate. subst fs.
  cbn [currently_in_failsafe net_ctx apply_update negb]. unfold constant.
  rewrite Hknown, Hlate. reflexivity.
Qed.

(** Without a datagram the loop stays in failsafe, whatever the clock
    says. *)
Lemma main_loop_awaiting (steps : list Step) (l : Loop) (w : World) :
  currently_in_failsafe l = true ->
  running l = true ->
  Forall (fun s => recv_len (tick_env s) <= 0) steps ->
  running (main_loop steps l w).1 = true
  /\ currently_in_failsafe (main_loop steps l w).1 = true
  /\ trace (main_loop steps l w).2 = trace w
  /\ thruster (main_loop steps l w).2 = thruster w.
Proof.
  intros Hfs Hrun Hsteps. revert l w Hfs Hrun.
  induction Hsteps as [|s steps Hs _ IH]; intros l w Hfs Hrun.
  - cbn. auto.
  - cbn [main_loop]. rewrite Hrun. unfold step.
    rewrite (tick_in_failsafe _ _ _ Hs Hfs).
    destruct (sync_payloads_frame (sync_payloads s) w) as (Ht & Hst & _).
    cbv zeta in Ht, Hst.
    set (w1 := foldl (fun w data => update_config_from_string data w) w
                     (sync_payloads s)) in *.
    set (l1 := l{{ net_ctx := net_ctx_after_receive (tick_env s); loop_counter := 0 }}).
    assert (Hfs1 : currently_in_failsafe l1 = true) by (destruct l; exact Hfs).
    assert (Hrun1 : running l1 = true) by (destruct l; exact Hrun).
    destruct (IH l1 (reload w1) Hfs1 Hrun1) as (Hr & Hf & Htr & Hth).
    rewrite Hr, Hf, Htr, Hth, reload_spec. cbn [trace thruster].
    rewrite Ht, Hst. auto.
Qed.
End Timeout.

(** C1. Once a peer is known, a tick without a datagram at which the
    elapsed time since the last receive exceeds
    [connection_timeout_seconds], the loop not being in failsafe, writes
    [pwm_min] (as sampled at the head of the tick) to the six thruster
    channels 0 to 5 through [set_thruster_pwm], which programs the duty
    cycle of [pwm_min] itself unless a hot reload of that very tick changed
    the limits, and leaves [running] false; nothing else is written. And in
    every execution in which no datagram is ever received the loop stays
    in failsafe with [running] true and writes nothing, whatever the
    elapsed time. *)
Theorem timeout_forces_pwm_min_and_terminates `{StdConv} `{GamepadLib} :
  (forall (e : TickEnv) (l : Loop) (w : World),
     recv_len e <= 0 ->
     client_addr_known (net_ctx_after_receive e) = true ->
     F64.gtb (time_since_last_packet (net_ctx l) (current_time_tv e))
             (connection_timeout_seconds (g_config w)) = true ->
     currently_in_failsafe l = false ->
     running (tick e l w).1 = false
     /\ currently_in_failsafe (tick e l w).1 = true
     /\ trace (tick e l w).2 =
          trace w ++ flat_map (fun channel =>
                                 set_thruster_pwm (g_config (tick e l w).2) channel
                                                  (pwm_min (g_config w)))
                              [0; 1; 2; 3; 4; 5]
     /\ (g_config_updated_flag w = false ->
         trace (tick e l w).2 =
           trace w ++ map (fun channel =>
                             set_pwm_channel_duty_cycle channel
                               (duty_cycle (g_config w) (pwm_min (g_config w))))
                          [0; 1; 2; 3; 4; 5]))
  /\ (forall (steps : list Step) (w : World),
        Forall (fun s => recv_len (tick_env s) <= 0) steps ->
        running (main_loop steps Loop_initial w).1 = true
        /\ currently_in_failsafe (main_loop steps Loop_initial w).1 = true
        /\ trace (main_loop steps Loop_initial w).2 = trace w
        /\ thruster (main_loop steps Loop_initial w).2 = thruster w).
Proof.
  split.
  - intros e l w Hrecv Hknown Hlate Hfs.
    rewrite (tick_timeout e l w Hrecv Hknown Hlate Hfs).
    rewrite call_thruster_spec, reload_spec. cbn [fst snd trace g_config thruster].
    split; [destruct l; reflexivity|]. split; [destruct l; reflexivity|].
    split; [reflexivity|].
    intros ->. unfold thruster_set_all_pwm. rewrite set_all_events.
    unfold set_thruster_pwm. cbn [flat_map map app seq NUM_THRUSTERS].
    rewrite clamped_pwm_of_pwm_min. reflexivity.
  - intros steps w Hsteps.
    apply main_loop_awaiting; [reflexivity | reflexivity | exact Hsteps].
Qed.

(** ** The rollover check *)

Section Rollover.
Context `{StdConv} `{GamepadLib}.

Lemma receive_phase_prev_accel_z_sign (e : TickEnv) (l : Loop) (w : World) :
  prev_accel_z_sign (receive_phase e l w).1 = prev_accel_z_sign l.
Proof.
  unfold receive_phase, on_packet, on_silence.
  destruct l as [ctx gp gy n run fs prev].
  cbn [currently_in_failsafe net_ctx apply_update]. unfold constant.
  repeat match goal with
    | |- context [if ?c then _ else _] => destruct c
    end; reflexivity.
Qed.

Lemma receive_phase_packet (e : TickEnv) (l : Loop) (w : World) :
  0 < recv_len e ->
  currently_in_failsafe (receive_phase e l w).1 = false
  /\ running (receive_phase e l w).1 = running l.
Proof.
  intros Hrecv. unfold receive_phase, on_packet.
  destruct (Z.ltb_spec 0 (recv_len e)) as [_|Hle]; [|lia].
  destruct l as [ctx gp gy n run [] prev]; split; reflexivity.
Qed.

Lemma normal_operation_runs (e : TickEnv) (interval : Z) (l : Loop) (w : World) :
  currently_in_failsafe l = false ->
  running l = true ->
  running (normal_operation e interval l w).1
    = rollover_check (prev_accel_z_sign l) (accel e) true
  /\ prev_accel_z_sign (normal_operation e interval l w).1
     = F32.copysign_one (AxisData.z (accel e)).
Proof.
  intros Hfs Hrun. unfold normal_operation. rewrite Hfs, Hrun. cbn [negb andb].
  destruct l as [ctx gp gy n run fs prev]. cbn in Hrun. subst run.
  cbn [loop_counter apply_update prev_accel_z_sign running]. unfold constant.
  destruct (interval <=? n); split; reflexivity.
Qed.

Lemma normal_operation_skipped (e : TickEnv) (interval : Z) (l : Loop) (w : World) :
  currently_in_failsafe l = true \/ running l = false ->
  normal_operation e interval l w = (l{{ loop_counter := 0 }}, w).
Proof.
  intros Hskip. unfold normal_operation.
  destruct Hskip as [-> | ->]; [reflexivity|].
  destruct (currently_in_failsafe l); reflexivity.
Qed.
End Rollover.


(** C2, counterexample. The loop is in normal operation, the recorded
    sign is -1 and the accelerometer reads +0.0 (sign +1) 100 ms after the
    last datagram: the signs differ, but the check requires a reading
    different from zero and [running] stays true. *)
Lemma sign_flip_counterexample :
  F32.neb (F32.copysign_one F32.zero) (F32.opp F32.one) = true
  /\ running (tick (H := Examples.decimal_conv) (H0 := Examples.xinput_gamepad)
                (Examples.silent_tick 100 100000 F32.zero)
                (Examples.connected (F32.opp F32.one)) Examples.world0).1 = true
  /\ ~ every_sign_flip_terminates.
Proof.
  assert (Hrun : running (tick (H := Examples.decimal_conv) (H0 := Examples.xinput_gamepad)
                            (Examples.silent_tick 100 100000 F32.zero)
                            (Examples.connected (F32.opp F32.one)) Examples.world0).1
                 = true) by (vm_compute; reflexivity).
  split; [vm_compute; reflexivity|]. split; [exact Hrun|].
  intros Hclaim.
  specialize (Hclaim Examples.decimal_conv Examples.xinput_gamepad
                (Examples.silent_tick 100 100000 F32.zero)
                (Examples.connected (F32.opp F32.one)) Examples.world0).
  rewrite Hrun in Hclaim.
  discriminate Hclaim; vm_compute; reflexivity.
Qed.

(** C2, amended. The rollover check runs at the ticks that reach normal
    operation (not in failsafe and still running after the receive step,
    which any tick that receives a datagram is). At such a tick the sign
    of accel.z is recorded, and [running] becomes false exactly when a sign
    had been recorded before, the sign read at this tick differs from it
    and the value read at this tick is not zero. At the other ticks the
    accelerometer is not consulted. *)
Theorem rollover_terminates_on_nonzero_sign_flip `{StdConv} `{GamepadLib}
    (e : TickEnv) (l : Loop) (w : World) :
  let l1 := (receive_phase e l w).1 in
  let current_accel_z_sign := F32.copysign_one (AxisData.z (accel e)) in
  (currently_in_failsafe l1 = false -> running l1 = true ->
   prev_accel_z_sign (tick e l w).1 = current_accel_z_sign
   /\ (running (tick e l w).1 = false <->
       F32.eqb (prev_accel_z_sign l) F32.zero = false
       /\ F32.neb current_accel_z_sign (prev_accel_z_sign l) = true
       /\ F32.neb (AxisData.z (accel e)) F32.zero = true))
  /\ (currently_in_failsafe l1 = true \/ running l1 = false ->
      prev_accel_z_sign (tick e l w).1 = prev_accel_z_sign l
      /\ running (tick e l w).1 = running l1)
  /\ (0 < recv_len e -> running l = true ->
      currently_in_failsafe l1 = false /\ running l1 = true).
Proof.
  intros l1 sign.
  pose proof (receive_phase_prev_accel_z_sign e l w) as Hprev.
  fold l1 in Hprev. unfold tick.
  destruct (receive_phase e l w) as [l1' w1] eqn:E. cbn [fst] in l1. subst l1.
  split; [|split].
  - intros Hfs Hrun.
    destruct (normal_operation_runs e (sensor_send_interval (g_config w)) l1' w1 Hfs Hrun)
      as [Hr Hp].
    split; [exact Hp|]. rewrite Hr, Hprev. unfold rollover_check. fold sign.
    destruct (F32.eqb (prev_accel_z_sign l) F32.zero),
      (F32.neb sign (prev_accel_z_sign l)),
      (F32.neb (AxisData.z (accel e)) F32.zero); cbn; intuition congruence.
  - intros Hskip. rewrite (normal_operation_skipped _ _ _ _ Hskip).
    destruct l1'; split; [exact Hprev | reflexivity].
  - intros Hrecv Hrun.
    destruct (receive_phase_packet e l w Hrecv) as [Hfs Hr].
    rewrite E in Hfs, Hr. cbn [fst] in Hfs, Hr. split; congruence.
Qed.

Lemma rollover_terminates_on_nonzero_sign_flip_witness :
  running (tick (H := Examples.decimal_conv) (H0 := Examples.xinput_gamepad)
             (Examples.silent_tick 100 100000 (F32.opp F32.one))
             (Examples.connected F32.one) Examples.world0).1 = false.
Proof.
  destruct (rollover_terminates_on_nonzero_sign_flip
              (H := Examples.decimal_conv) (H0 := Examples.xinput_gamepad)
              (Examples.silent_tick 100 100000 (F32.opp F32.one))
              (Examples.connected F32.one) Examples.world0) as (Hnormal & _).
  destruct Hnormal as [_ Hflip]; [vm_compute; reflexivity | vm_compute; reflexivity |].
  apply Hflip. repeat split; vm_compute; reflexivity.
Defined.

(** ** Hot reload *)


Section Reload.
Context `{StdConv}.

(** An exception at one line leaves [loadConfig] whatever follows. *)
Lemma parse_lines_exception (before after : list string) (line : string)
    (st st1 : parser) :
  parse_lines before st = Converted st1 ->
  is_exception (parse_line line st1) ->
  is_exception (parse_lines (before ++ line :: after) st).
Proof.
  revert st. induction before as [|l before IH]; intros st Hbefore Hline.
  - cbn in Hbefore. injection Hbefore as ->. cbn [app parse_lines].
    destruct (parse_line line st1); [destruct Hline | exact I | exact I].
  - cbn [app parse_lines] in *.
    destruct (parse_line l st) as [st'| |]; try discriminate Hbefore.
    apply (IH st' Hbefore Hline).
Qed.

Lemma loadConfig_false (file : option string) (g : AppConfig) :
  (loadConfig file g).1 = false -> (loadConfig file g).2 = g.
Proof.
  unfold loadConfig. destruct file as [content|]; [|reflexivity].
  destruct (parse_lines _ _); [discriminate | reflexivity | reflexivity].
Qed.
End Reload.

(** C5. [loadConfig] parses the whole file into a temporary record that
    starts from the defaults and assigns it to the shared record only when
    no line throws: it returns true exactly when the file could be read and
    every line was processed without a conversion exception, and the shared
    record is then the temporary one; when it returns false (the file cannot
    be opened, or a conversion throws at some line, whatever comes before
    and after it) the shared record is what it was before the call. A tick
    whose hot reload fails behaves as the same tick without a reload
    request: the loop goes on with the previous parameters. *)
Theorem loadConfig_all_or_nothing `{StdConv} `{GamepadLib} :
  (forall (file : option string) (g : AppConfig),
     ((loadConfig file g).1 = false -> (loadConfig file g).2 = g)
     /\ ((loadConfig file g).1 = true <->
         exists content st,
           file = Some content
           /\ parse_lines (Str.getlines content)
                parser_initial
              = Converted st
           /\ (loadConfig file g).2 = temp_config st))
  /\ (forall (content : string) (g : AppConfig) before line after st1,
        Str.getlines content = before ++ line :: after ->
        parse_lines before parser_initial
          = Converted st1 ->
        is_exception (parse_line line st1) ->
        loadConfig (Some content) g = (false, g))
  /\ (forall (e : TickEnv) (l : Loop) (w : World),
        g_config_updated_flag w = true ->
        (loadConfig (config_ini w) (g_config w)).1 = false ->
        tick e l w = tick e l (w{{ g_config_updated_flag := false }})
        /\ g_config (tick e l w).2 = g_config w
        /\ g_config_updated_flag (tick e l w).2 = false).
Proof.
  split; [|split].
  - intros file g. split; [apply loadConfig_false|]. unfold loadConfig.
    destruct file as [content|].
    + destruct (parse_lines _ _) as [st| |] eqn:E; cbn [fst snd].
      * split; [|reflexivity]. intros _. exists content, st. auto.
      * split; [discriminate|]. intros (c & st & Hf & Hp & _).
        injection Hf as <-. rewrite E in Hp. discriminate Hp.
      * split; [discriminate|]. intros (c & st & Hf & Hp & _).
        injection Hf as <-. rewrite E in Hp. discriminate Hp.
    + cbn. split; [discriminate|]. intros (c & st & Hf & _). discriminate Hf.
  - intros content g before line after st1 Hlines Hbefore Hline.
    unfold loadConfig. rewrite Hlines.
    pose proof (parse_lines_exception before after line _ st1 Hbefore Hline) as Hex.
    destruct (parse_lines (before ++ line :: after) _);
      [contradiction Hex | reflexivity | reflexivity].
  - intros e l w Hflag Hfail.
    pose proof (loadConfig_false _ _ Hfail) as Hsame.
    assert (Hreload : reload w = w{{ g_config_updated_flag := false }}).
    { rewrite reload_spec, Hflag, Hsame. destruct w; reflexivity. }
    assert (Hreload' : reload (w{{ g_config_updated_flag := false }})
                       = w{{ g_config_updated_flag := false }}).
    { rewrite reload_spec. destruct w; reflexivity. }
    assert (Htick : tick e l w = tick e l (w{{ g_config_updated_flag := false }})).
    { unfold tick, receive_phase. rewrite Hreload, Hreload'.
      destruct w; reflexivity. }
    split; [exact Htick|].
    destruct (tick_same_settings e l w) as (Hg & Hf & _).
    rewrite Hreload in Hg, Hf. rewrite Hg, Hf. clear. destruct w. split; reflexivity.
Qed.

(** ** The shutdown sequence *)

Section Shutdown.
Context `{StdConv} `{GamepadLib}.

Lemma main_loop_led_state_file (steps : list Step) (l : Loop) (w : World) :
  led_state_file (main_loop steps l w).2 = led_state_file w.
Proof.
  revert l w. induction steps as [|s steps IH]; intros l w; [reflexivity|].
  cbn [main_loop]. destruct (running l); [|reflexivity].
  unfold step. destruct (tick _ _ _) as [l1 w1] eqn:E.
  rewrite IH.
  pose proof (tick_same_settings (tick_env s) l
                (foldl (fun w data => update_config_from_string data w) w
                       (sync_payloads s))) as (_ & _ & Hfile & _).
  rewrite E in Hfile. cbn [snd] in Hfile. rewrite Hfile, reload_spec.
  cbn [led_state_file].
  apply (sync_payloads_frame (sync_payloads s) w).
Qed.

(** What the clean-up does: the calls, in order, and nothing to the
    snapshot file. *)
Lemma cleanup_spec (w : World) :
  let g := g_config w in
  trace (cleanup w) =
    trace w ++ [config_sync_stop]
    ++ (thruster_set_all_pwm g (pwm_min g) (thruster w)).2
    ++ (thruster_disable g (thruster_set_all_pwm g (pwm_min g) (thruster w)).1).2
    ++ [network_close; stop_gstreamer_pipelines]
  /\ led_state_file (cleanup w) = led_state_file w.
Proof.
  unfold cleanup. repeat (rewrite emit_spec || rewrite call_thruster_spec).
  cbn [trace g_config thruster led_state_file].
  split; [|reflexivity]. rewrite <- !app_assoc. reflexivity.
Qed.
End Shutdown.

(** C4, the behaviour of the code. When [main] returns after the loop
    (status 0), the clean-up has stopped the synchronisation task, set the
    six thrusters to [pwm_min], disabled the PWM output, closed the network
    and stopped the video pipelines, in this order; it has not written the
    LED snapshot: [thruster_save_led_state_to_file] is not called, and the
    snapshot file, removed by [thruster_init], does not exist at exit,
    whatever the LED states are. *)
Theorem clean_shutdown_leaves_no_led_snapshot `{StdConv} `{GamepadLib}
    (network_init_ok : bool) (steps : list Step) (w w' : World) :
  main network_init_ok steps w = Some (0, w') ->
  led_state_file w' = None
  /\ exists w_exit : World,
       let g := g_config w_exit in
       trace w' =
         trace w_exit ++ [config_sync_stop]
         ++ (thruster_set_all_pwm g (pwm_min g) (thruster w_exit)).2
         ++ (thruster_disable g
               (thruster_set_all_pwm g (pwm_min g) (thruster w_exit)).1).2
         ++ [network_close; stop_gstreamer_pipelines] ++ [config_sync_stop].
Proof.
  unfold main. intros Hmain.
  destruct (loadConfig (config_ini w) (g_config w)) as [ok g] eqn:Eload.
  destruct ok; cbn [negb] in Hmain; [|discriminate Hmain].
  destruct network_init_ok; cbn [negb] in Hmain; [|discriminate Hmain].
  destruct (thruster_init _ _ _) as [[st file] evs] eqn:Einit.
  destruct (main_loop _ _ _) as [l w_exit] eqn:Eloop.
  destruct (running l); [discriminate Hmain|].
  injection Hmain as <-.
  destruct (cleanup_spec w_exit) as [Htrace Hfile]. cbv zeta in Htrace.
  rewrite emit_spec. cbn [led_state_file trace]. split.
  - rewrite Hfile.
    pose proof (main_loop_led_state_file steps Loop_initial) as Hloop.
    match type of Eloop with main_loop _ _ ?w0 = _ => specialize (Hloop w0) end.
    rewrite Eloop in Hloop. cbn [snd] in Hloop. rewrite Hloop.
    repeat (rewrite emit_spec || rewrite call_thruster_spec). cbn [led_state_file].
    unfold thruster_init in Einit.
    destruct (set_all _ _ _) in Einit. injection Einit as _ <- _.
    destruct w; reflexivity.
  - exists w_exit. cbv zeta. rewrite Htrace, <- !app_assoc. reflexivity.
Qed.

(** The failing input: LED 1 is switched on by the first datagram, then
    the connection times out; [main] returns 0, LED 1 is ON and there is no
    snapshot. *)
Lemma clean_shutdown_leaves_no_led_snapshot_witness :
  exists w' : World,
    main (H := Examples.decimal_conv) (H0 := Examples.xinput_gamepad)
         true Examples.press_then_silence Examples.boot = Some (0, w')
    /\ current_led_state (thruster w') = ON
    /\ led_state_file w' = None.
Proof.
  destruct (main (H := Examples.decimal_conv) (H0 := Examples.xinput_gamepad)
              true Examples.press_then_silence Examples.boot)
    as [[code w']|] eqn:E; [|vm_compute in E; discriminate E].
  assert (Hcode : code = 0) by (vm_compute in E; injection E as <- _; reflexivity).
  subst code. exists w'. split; [reflexivity|]. split.
  - vm_compute in E. injection E as <-. reflexivity.
  - apply (clean_shutdown_leaves_no_led_snapshot (H := Examples.decimal_conv)
             (H0 := Examples.xinput_gamepad) true Examples.press_then_silence
             Examples.boot w' E).
Defined.

(** ** The theorems at concrete inputs *)

Lemma timeout_forces_pwm_min_and_terminates_witness :
  running (tick (H := Examples.decimal_conv) (H0 := Examples.xinput_gamepad)
             (Examples.silent_tick 101 0 F32.one)
             (Examples.connected F32.one) Examples.world0).1 = false
  /\ running (main_loop (H := Examples.decimal_conv) (H0 := Examples.xinput_gamepad)
                Examples.silence Loop_initial Examples.world0).1 = true.
Proof.
  destruct (timeout_forces_pwm_min_and_terminates
              (H := Examples.decimal_conv) (H0 := Examples.xinput_gamepad))
    as [Hfires Hwaits].
  split.
  - apply (Hfires (Examples.silent_tick 101 0 F32.one) (Examples.connected F32.one)
             Examples.world0).
    + vm_compute. discriminate.
    + reflexivity.
    + vm_compute. reflexivity.
    + reflexivity.
  - apply (Hwaits Examples.silence Examples.world0).
    repeat constructor; vm_compute; discriminate.
Defined.

Lemma loadConfig_all_or_nothing_witness :
  loadConfig (H := Examples.decimal_conv) (Some Examples.malformed_ini)
    Examples.boost_config = (false, Examples.boost_config)
  /\ g_config (tick (H := Examples.decimal_conv) (H0 := Examples.xinput_gamepad)
                 (Examples.silent_tick 100 100000 F32.one)
                 (Examples.connected F32.one) Examples.reload_requested).2
     = AppConfig_default.
Proof.
  destruct (loadConfig_all_or_nothing
              (H := Examples.decimal_conv) (H0 := Examples.xinput_gamepad))
    as (_ & Hthrows & Hreload).
  split.
  - apply (Hthrows Examples.malformed_ini Examples.boost_config
             ["[pwm]"; "pwm_min = 1150"] "pwm_boost_max = high"
             ["[led]"; "channel = 9"] Examples.after_two_lines).
    + vm_compute. reflexivity.
    + vm_compute. reflexivity.
    + vm_compute. exact I.
  - apply (Hreload (Examples.silent_tick 100 100000 F32.one)
             (Examples.connected F32.one) Examples.reload_requested).
    + reflexivity.
    + vm_compute. reflexivity.
Defined.

Lemma accessories_change_on_rising_edges_witness :
  current_led2_state
    (thruster_updates (H := Examples.xinput_gamepad) Examples.four_presses
       Examples.world0.(thruster)) = OFF
  /\ current_led2_state
       (thruster_updates (H := Examples.xinput_gamepad) (take 2 Examples.four_presses)
          Examples.world0.(thruster)) = ON1.
Proof.
  destruct (accessories_change_on_rising_edges (H := Examples.xinput_gamepad))
    as (Haccessory & _).
  assert (Hin : {| led_state := current_led2_state;
                   previously_pressed := dpad_up_button_previously_pressed;
                   button_mask := 1; next_state := cycle_led |}
                ∈ accessories (H := Examples.xinput_gamepad)).
  { apply list_elem_of_further, list_elem_of_here. }
  destruct (Haccessory _ Hin) as [_ Hrun].
  split.
  - exact (eq_trans (Hrun Examples.four_presses Examples.world0.(thruster))
                    ltac:(vm_compute; reflexivity)).
  - exact (eq_trans (Hrun (take 2 Examples.four_presses) Examples.world0.(thruster))
                    ltac:(vm_compute; reflexivity)).
Defined.
